(** * Distraction-detection trainer: a shallow embedding of
      [src/models/random-forest/train_model.py]

    The script draws a synthetic data set from NumPy's global random
    generator, labels every row with a weighted threshold rule, splits the
    rows, fits a random forest, prints a few metrics and writes three files.

    The embedding follows the script line by line:
    - floating-point values are IEEE 754 binary64 numbers ([spec_float] with
      precision 53 and maximal exponent 1024), so the label rule is computed
      with the very roundings Python performs;
    - the data frame is a record of six columns and the label rule is the
      column-wise (vectorised) expression of the source;
    - NumPy, scikit-learn, skl2onnx and the [json] module are not part of the
      repository: their entry points are the fields of a record [Libs], and
      the few facts about them that a statement needs are explicit
      hypotheses of that statement;
    - the interpreter state touched by the script (global generator, site
      packages, directories, files, standard output) is a record [World]
      threaded through a state-and-exception monad. *)

From Stdlib Require Import ZArith QArith Qround Qabs Qpower Lia Lqa.
From Stdlib Require Import Floats.SpecFloat Ascii.
From stdpp Require Import gmap strings list pretty.

Local Open Scope Z_scope.

(** ** Binary64 arithmetic *)

Module F64.

Abbreviation float := spec_float.

Definition prec : Z := 53.
Definition emax : Z := 1024.

Definition add : float -> float -> float := SFadd prec emax.
Definition mul : float -> float -> float := SFmul prec emax.
Definition div : float -> float -> float := SFdiv prec emax.
Definition ltb : float -> float -> bool := SFltb.
Definition leb : float -> float -> bool := SFleb.
Definition eqb : float -> float -> bool := SFeqb.

(** Conversion of an integer, rounded to nearest even (exact below 2^53). *)
Definition of_Z (z : Z) : float := binary_normalize prec emax z 0 false.

Definition zero : float := S754_zero false.
Definition one : float := of_Z 1.

(** NumPy promotes a boolean to 1.0 or 0.0 before multiplying it by a
    float. *)
Definition of_bool (b : bool) : float := if b then one else zero.

(** The value of the decimal literal [num/den]: the correctly rounded
    quotient of two exactly represented integers is the binary64 number
    nearest to the rational, which is what Python's parser produces. *)
Definition decimal (num den : Z) : float := div (of_Z num) (of_Z den).

(** The rational value of a finite number (0 for the others). *)
Definition toQ (x : float) : Q :=
  match x with
  | S754_finite s m e => (inject_Z (cond_Zopp s (Zpos m)) * Qpower 2 e)%Q
  | _ => 0%Q
  end.

Definition is_finite (x : float) : bool :=
  match x with
  | S754_finite _ _ _ | S754_zero _ => true
  | _ => false
  end.

(** [math.ceil]: defined on finite numbers only (Python raises on
    infinities and NaN). *)
Definition ceil (x : float) : option Z :=
  if is_finite x then Some (Qceiling (toQ x)) else None.

End F64.

Abbreviation float := spec_float.

(** ** Python values used by the script *)

(** The argument of a [SystemExit]: none, an integer, or another object. *)
Inductive exit_arg :=
  | ExitNone
  | ExitInt (n : Z)
  | ExitOther.

(** The two classes that the interpreter treats in a way of their own when
    nobody catches them, subclasses included. *)
Inductive special_class :=
  | NotSpecial
  | IsKeyboardInterrupt
  | IsSystemExit (code : exit_arg).

(** Exceptions.  [exn_is_Exception] tells whether the class derives from
    [Exception]; [KeyboardInterrupt] and [SystemExit] do not, and an
    [except Exception] clause lets them through. *)
Record exn := Exn {
  exn_class : string;
  exn_is_Exception : bool;
  exn_msg : string;
  exn_special : special_class
}.

(** The status with which CPython (3.8 and later, on POSIX with a C [long]
    of 64 bits, as a shell reports it) ends on an exception nobody caught.
    A [SystemExit] ends it without a traceback: status 0 for no code; for an
    integer code that fits a C [long] its low eight bits, and for one that
    does not the low eight bits of -1; status 1 for any other code, which is
    printed.  A [KeyboardInterrupt] makes it print the traceback and kill
    itself with SIGINT, which a shell reports as 128 + 2.  Any other
    exception gives a traceback and status 1. *)
Definition exit_status (e : exn) : Z :=
  match exn_special e with
  | IsSystemExit ExitNone => 0
  | IsSystemExit (ExitInt n) =>
      if decide (- 2 ^ 63 ≤ n < 2 ^ 63) then n mod 256 else 255
  | IsSystemExit ExitOther => 1
  | IsKeyboardInterrupt => 130
  | NotSpecial => 1
  end.

Definition ModuleNotFoundError (name : string) : exn :=
  Exn "ModuleNotFoundError" true ("No module named '" +:+ name +:+ "'")
      NotSpecial.
Definition PermissionError (path : string) : exn :=
  Exn "PermissionError" true ("[Errno 13] Permission denied: '" +:+ path +:+ "'")
      NotSpecial.
Definition FileNotFoundError (path : string) : exn :=
  Exn "FileNotFoundError" true ("[Errno 2] No such file or directory: '" +:+ path +:+ "'")
      NotSpecial.
Definition FileExistsError (path : string) : exn :=
  Exn "FileExistsError" true ("[Errno 17] File exists: '" +:+ path +:+ "'")
      NotSpecial.
Definition ValueError (msg : string) : exn :=
  Exn "ValueError" true msg NotSpecial.
Definition IndexError (msg : string) : exn :=
  Exn "IndexError" true msg NotSpecial.

(** Documents handed to [json.dump].  A Python [dict] keeps insertion
    order, hence the association list. *)
#[warnings="-register-all"] Inductive json :=
  | JInt (z : Z)
  | JFloat (x : float)
  | JStr (s : string)
  | JList (l : list json)
  | JDict (kv : list (string * json)).

(** [d[k] = v] on an insertion-ordered dictionary: an existing key keeps its
    position and gets the new value, a new key goes last. *)
Fixpoint dict_set {V : Type} (k : string) (v : V) (d : list (string * V))
  : list (string * V) :=
  match d with
  | [] => [(k, v)]
  | (k', v') :: r =>
      if decide (k = k') then (k, v) :: r else (k', v') :: dict_set k v r
  end.

(** [enumerate(l)] *)
Definition enumerate {A : Type} (l : list A) : list (nat * A) := imap pair l.

Definition nl : string := String (Ascii.ascii_of_nat 10) EmptyString.

(** ** The data frame and the label rule *)

(** The frame built at lines 41-51: six columns, in the order of the keys of
    the [data] dictionary.  The two exponential columns and the beta column
    are float64, the other three int64. *)
Record DataFrame := {
  timeSpent : list float;
  scrollCount : list Z;
  scrollDepth : list float;
  clickCount : list Z;
  tabSwitches : list Z;
  videoWatchTime : list float
}.

(** [X.columns] *)
Definition columns (df : DataFrame) : list string :=
  ["timeSpent"; "scrollCount"; "scrollDepth"; "clickCount"; "tabSwitches";
   "videoWatchTime"].

Definition nrows (df : DataFrame) : nat := length (timeSpent df).

(** One row of the frame. *)
Record Sample := {
  s_timeSpent : float;
  s_scrollCount : Z;
  s_scrollDepth : float;
  s_clickCount : Z;
  s_tabSwitches : Z;
  s_videoWatchTime : float
}.

Definition row (df : DataFrame) (i : nat) : option Sample :=
  a ← timeSpent df !! i;
  b ← scrollCount df !! i;
  c ← scrollDepth df !! i;
  d ← clickCount df !! i;
  e ← tabSwitches df !! i;
  f ← videoWatchTime df !! i;
  Some {| s_timeSpent := a; s_scrollCount := b; s_scrollDepth := c;
          s_clickCount := d; s_tabSwitches := e; s_videoWatchTime := f |}.

(** [pd.DataFrame(data)] refuses columns of different lengths. *)
Definition same_lengths (df : DataFrame) : bool :=
  let n := nrows df in
  bool_decide (length (scrollCount df) = n)
  && bool_decide (length (scrollDepth df) = n)
  && bool_decide (length (clickCount df) = n)
  && bool_decide (length (tabSwitches df) = n)
  && bool_decide (length (videoWatchTime df) = n).

Definition pd_DataFrame (df : DataFrame) : exn + DataFrame :=
  if same_lengths df then inr df
  else inl (ValueError "All arrays must be of the same length").

(** Element-wise operations on columns.  A comparison with NaN is false. *)
Definition series_gt_float (col : list float) (c : float) : list bool :=
  (λ x, F64.ltb c x) <$> col.
Definition series_gt_int (col : list Z) (c : Z) : list bool :=
  (λ x, bool_decide (c < x)) <$> col.
Definition series_lt_int (col : list Z) (c : Z) : list bool :=
  (λ x, bool_decide (x < c)) <$> col.
Definition series_mul (col : list bool) (w : float) : list float :=
  (λ b, F64.mul (F64.of_bool b) w) <$> col.
Definition series_add (a b : list float) : list float := zip_with F64.add a b.
Definition series_astype_int (col : list bool) : list Z :=
  (λ b : bool, if b then 1 else 0) <$> col.

(** The constants of lines 56-65. *)
Definition w_timeSpent : float := Eval vm_compute in F64.decimal 3 10.
Definition w_scrollCount : float := Eval vm_compute in F64.decimal 2 10.
Definition w_scrollDepth : float := Eval vm_compute in F64.decimal 15 100.
Definition w_clickCount : float := Eval vm_compute in F64.decimal 1 10.
Definition w_tabSwitches : float := Eval vm_compute in F64.decimal 15 100.
Definition w_videoWatchTime : float := Eval vm_compute in F64.decimal 1 10.
Definition threshold : float := Eval vm_compute in F64.decimal 4 10.
Definition scrollDepth_limit : float := Eval vm_compute in F64.decimal 8 10.

(** Lines 55-62: Python's [+] associates to the left. *)
Definition distraction_score (df : DataFrame) : list float :=
  series_add (series_add (series_add (series_add (series_add
    (series_mul (series_gt_float (timeSpent df) (F64.of_Z 600)) w_timeSpent)
    (series_mul (series_gt_int (scrollCount df) 50) w_scrollCount))
    (series_mul (series_gt_float (scrollDepth df) scrollDepth_limit) w_scrollDepth))
    (series_mul (series_lt_int (clickCount df) 2) w_clickCount))
    (series_mul (series_gt_int (tabSwitches df) 5) w_tabSwitches))
    (series_mul (series_gt_float (videoWatchTime df) (F64.of_Z 300)) w_videoWatchTime).

(** Line 65 *)
Definition labels (df : DataFrame) : list Z :=
  series_astype_int (series_gt_float (distraction_score df) threshold).

(** The same rule read row by row. *)
Record Indicators := {
  i_timeSpent : bool;
  i_scrollCount : bool;
  i_scrollDepth : bool;
  i_clickCount : bool;
  i_tabSwitches : bool;
  i_videoWatchTime : bool
}.

Definition indicators (s : Sample) : Indicators :=
  {| i_timeSpent := F64.ltb (F64.of_Z 600) (s_timeSpent s);
     i_scrollCount := bool_decide (50 < s_scrollCount s);
     i_scrollDepth := F64.ltb scrollDepth_limit (s_scrollDepth s);
     i_clickCount := bool_decide (s_clickCount s < 2);
     i_tabSwitches := bool_decide (5 < s_tabSwitches s);
     i_videoWatchTime := F64.ltb (F64.of_Z 300) (s_videoWatchTime s) |}.

Definition weighted (b : bool) (w : float) : float := F64.mul (F64.of_bool b) w.

Definition score_of (c : Indicators) : float :=
  F64.add (F64.add (F64.add (F64.add (F64.add
    (weighted (i_timeSpent c) w_timeSpent)
    (weighted (i_scrollCount c) w_scrollCount))
    (weighted (i_scrollDepth c) w_scrollDepth))
    (weighted (i_clickCount c) w_clickCount))
    (weighted (i_tabSwitches c) w_tabSwitches))
    (weighted (i_videoWatchTime c) w_videoWatchTime).

Definition label_of (c : Indicators) : Z :=
  if F64.ltb threshold (score_of c) then 1 else 0.

(** ** Interpreter state and the monad of the script *)

(** What the script reads and writes outside its own variables.  [R] is the
    type of the state of NumPy's global generator. *)
Record World (R : Type) := mkWorld {
  rng : R;
  site_packages : gset string;   (* importable third-party packages *)
  dirs : gset string;            (* existing directories *)
  files : gmap string string;    (* regular files and their contents *)
  denied : gset string;          (* paths the system refuses to create or write *)
  stdout : list string           (* one entry per [print] call *)
}.
Arguments mkWorld {R}.
Arguments rng {R}.
Arguments site_packages {R}.
Arguments dirs {R}.
Arguments files {R}.
Arguments denied {R}.
Arguments stdout {R}.

(** A statement either completes with a value or raises; the world it
    leaves behind is kept in both cases. *)
Definition M (R A : Type) : Type := World R → (exn + A) * World R.

#[global] Instance M_ret {R} : MRet (M R) := λ A (a : A) w, (inr a, w).
#[global] Instance M_bind {R} : MBind (M R) := λ A B (k : A → M R B) (c : M R A) w,
  match c w with
  | (inr a, w') => k a w'
  | (inl e, w') => (inl e, w')
  end.

Definition raise {R A} (e : exn) : M R A := λ w, (inl e, w).

(** The result of a library call that may raise. *)
Definition lib {R A} (r : exn + A) : M R A := λ w, (r, w).

(** [try: body except Exception as e: handler(e)] *)
Definition try_except {R A} (body : M R A) (handler : exn → M R A) : M R A := λ w,
  match body w with
  | (inl e, w') => if exn_is_Exception e then handler e w' else (inl e, w')
  | r => r
  end.

Definition print {R} (s : string) : M R () := λ w,
  (inr (), mkWorld (rng w) (site_packages w) (dirs w) (files w) (denied w)
                   (stdout w ++ [s])).

(** The world after some more lines on the console. *)
Definition printed {R} (lines : list string) (w : World R) : World R :=
  mkWorld (rng w) (site_packages w) (dirs w) (files w) (denied w)
          (stdout w ++ lines).

(** [np.random.seed] and a draw from the global generator. *)
Definition set_rng {R} (r : R) (w : World R) : World R :=
  mkWorld r (site_packages w) (dirs w) (files w) (denied w) (stdout w).

Definition np_random_seed {R} (seed : Z → R) (s : Z) : M R () := λ w,
  (inr (), set_rng (seed s) w).

Definition np_random {R A} (draw : R → A * R) : M R A := λ w,
  let '(a, r) := draw (rng w) in (inr a, set_rng r w).

(** [import pkg]: modules of the standard library are always there. *)
Definition py_import {R} (pkg : string) : M R () := λ w,
  if decide (pkg ∈ site_packages w) then (inr (), w)
  else (inl (ModuleNotFoundError pkg), w).

(** [os.makedirs(d, exist_ok=True)] for a one-component relative path. *)
Definition os_makedirs {R} (d : string) : M R () := λ w,
  if decide (d ∈ dirs w) then (inr (), w)
  else if decide (is_Some (files w !! d)) then (inl (FileExistsError d), w)
  else if decide (d ∈ denied w) then (inl (PermissionError d), w)
  else (inr (), mkWorld (rng w) (site_packages w) ({[d]} ∪ dirs w) (files w)
                        (denied w) (stdout w)).

(** The directory part of a path: what precedes its last slash. *)
Fixpoint dirname_opt (s : string) : option string :=
  match s with
  | EmptyString => None
  | String c r =>
      match dirname_opt r with
      | Some d => Some (String c d)
      | None => if decide (c = "/"%char) then Some EmptyString else None
      end
  end.
Definition dirname (s : string) : string := default EmptyString (dirname_opt s).

(** [with open(path, mode) as f: f.write(content)] with mode ['w'] or
    ['wb']: the file is created or truncated, then filled. *)
Definition write_file {R} (path content : string) : M R () := λ w,
  if decide (dirname path ∈ dirs w) then
    if decide (path ∈ denied w) then (inl (PermissionError path), w)
    else (inr (), mkWorld (rng w) (site_packages w) (dirs w)
                          (<[path := content]> (files w)) (denied w) (stdout w))
  else (inl (FileNotFoundError path), w).

(** [a[i]] on an array *)
Definition getitem {R A} (a : list A) (i : nat) : M R A :=
  match a !! i with
  | Some x => mret x
  | None => raise (IndexError ("index " +:+ pretty i +:+ " is out of bounds for axis 0 with size "
                               +:+ pretty (length a)))
  end.

(** ** The libraries the script calls *)

(** [RandomForestClassifier(...)]: the constructor only records its
    hyperparameters. *)
Record RandomForestClassifier := {
  n_estimators : nat;
  max_depth : nat;
  min_samples_split : nat;
  random_state : Z
}.

(** [FloatTensorType(shape)], [None] being a free dimension. *)
Record FloatTensorType := { tensor_shape : list (option nat) }.

(** Entry points of NumPy, scikit-learn, skl2onnx and of Python's own
    [json] and string formatting, as the script uses them.  A sampler of
    [numpy.random] takes its parameters, the [size] and the state of the
    global generator, and returns the array and the next state.  A call of
    scikit-learn with an integer [random_state] depends on its arguments
    only. *)
Record Libs := {
  rng_state : Type;
  np_seed : Z → rng_state;
  np_exponential : float → nat → rng_state → list float * rng_state;
  np_negative_binomial : float → float → nat → rng_state → list Z * rng_state;
  np_beta : float → float → nat → rng_state → list float * rng_state;
  np_poisson : float → nat → rng_state → list Z * rng_state;
  fitted_forest : Type;
  decision_tree : Type;
  train_test_split : DataFrame → list Z → float → Z →
                     exn + (DataFrame * DataFrame * list Z * list Z);
  rf_fit : RandomForestClassifier → DataFrame → list Z → exn + fitted_forest;
  rf_predict : fitted_forest → DataFrame → exn + list Z;
  feature_importances_ : fitted_forest → list float;
  estimators_ : fitted_forest → list decision_tree;
  accuracy_score : list Z → list Z → exn + float;
  classification_report : list Z → list Z → exn + string;
  onnx_model : Type;
  convert_sklearn : fitted_forest → list (string * FloatTensorType) → Z →
                    exn + onnx_model;
  SerializeToString : onnx_model → string;
  json_dumps : json → nat → string;   (* document, [indent] *)
  format_4f : float → string          (* the format [:.4f] *)
}.

Abbreviation world L := (World (rng_state L)).
Abbreviation prog L := (M (rng_state L)).

(** ** The script *)

Section Script.

Context (L : Libs).

(** Lines 22-67.  [n_samples] is [None] when the caller leaves the argument
    out. *)
Definition generate_synthetic_data (n_samples : option nat)
  : prog L (DataFrame * list Z) :=
  let n_samples := default 1000%nat n_samples in
  np_random_seed (np_seed L) 42;;
  c1 ← np_random (np_exponential L (F64.of_Z 300) n_samples);
  c2 ← np_random (np_negative_binomial L (F64.of_Z 5) (F64.decimal 5 10) n_samples);
  c3 ← np_random (np_beta L (F64.of_Z 2) (F64.of_Z 2) n_samples);
  c4 ← np_random (np_negative_binomial L (F64.of_Z 3) (F64.decimal 6 10) n_samples);
  c5 ← np_random (np_poisson L (F64.of_Z 2) n_samples);
  c6 ← np_random (np_exponential L (F64.of_Z 120) n_samples);
  df ← lib (pd_DataFrame {| timeSpent := c1; scrollCount := c2; scrollDepth := c3;
                            clickCount := c4; tabSwitches := c5;
                            videoWatchTime := c6 |});
  mret (df, labels df).

(** Line 84-89 *)
Definition model : RandomForestClassifier :=
  {| n_estimators := 100; max_depth := 10; min_samples_split := 5;
     random_state := 42 |}.

Definition test_size : float := Eval vm_compute in F64.decimal 2 10.

(** [str(X.shape)] *)
Definition shape_str (df : DataFrame) : string :=
  "(" +:+ pretty (nrows df) +:+ ", " +:+ pretty (length (columns df)) +:+ ")".

(** [sum(y == v)] *)
Definition count_eq (y : list Z) (v : Z) : nat :=
  length (filter (λ x, x = v) y).

(** Lines 107-110 *)
Fixpoint importance_loop (feature_importance : list float)
    (items : list (nat * string)) (importance_dict : list (string * float))
  : prog L (list (string * float)) :=
  match items with
  | [] => mret importance_dict
  | (i, feature) :: rest =>
      importance ← getitem feature_importance i;
      let importance_dict := dict_set feature importance importance_dict in
      print (feature +:+ ": " +:+ format_4f L importance);;
      importance_loop feature_importance rest importance_dict
  end.

Definition importance_json (d : list (string * float)) : json :=
  JDict (prod_map id JFloat <$> d).

(** Lines 136-142 *)
Definition tree_data {T} (features : list string) (i : nat) (tree : T) : json :=
  JDict [("treeIndex", JInt (Z.of_nat i));
         ("feature_names", JList (JStr <$> features))].

Definition importance_path : string := "model_data/feature_importance.json".
Definition output_path : string := "onnx/random_forest_model.onnx".
Definition trees_path : string := "model_data/trees_data.json".

(** Lines 69-148 *)
Definition train_and_export_model : prog L () :=
  print "Generating synthetic training data...";;
  '(X, y) ← generate_synthetic_data (Some 2000%nat);
  '(X_train, X_test, y_train, y_test) ← lib (train_test_split L X y test_size 42);
  print ("Training data shape: " +:+ shape_str X_train);;
  print ("Class distribution: Focused=" +:+ pretty (count_eq y 0)
         +:+ ", Distracted=" +:+ pretty (count_eq y 1));;
  print "Training Random Forest model...";;
  fitted ← lib (rf_fit L model X_train y_train);
  y_pred ← lib (rf_predict L fitted X_test);
  accuracy ← lib (accuracy_score L y_test y_pred);
  print ("Model Accuracy: " +:+ format_4f L accuracy);;
  print (nl +:+ "Classification Report:");;
  report ← lib (classification_report L y_test y_pred);
  print report;;
  let feature_importance := feature_importances_ L fitted in
  let features := columns X in
  print (nl +:+ "Feature Importance:");;
  importance_dict ← importance_loop feature_importance (enumerate features) [];
  write_file importance_path (json_dumps L (importance_json importance_dict) 2);;
  print (nl +:+ "Exporting model to ONNX format...");;
  let initial_type :=
    [("float_input", {| tensor_shape := [None; Some (length features)] |})] in
  onnx ← lib (convert_sklearn L fitted initial_type 12);
  write_file output_path (SerializeToString L onnx);;
  print ("ONNX model saved to " +:+ output_path);;
  print (nl +:+ "Extracting decision trees for JavaScript implementation...");;
  let trees_data := imap (tree_data features) (take 5 (estimators_ L fitted)) in
  write_file trees_path (json_dumps L (JList trees_data) 2);;
  print "Model training and export completed successfully!".

(** Lines 160-163 *)
Definition handler (e : exn) : prog L () :=
  print ("Error: " +:+ exn_msg e);;
  print (nl +:+ "To run this script, you need the following packages:");;
  print "pip install numpy pandas scikit-learn skl2onnx".

(** Lines 150-163 *)
Definition main : prog L () :=
  print "Focus Nudge - Random Forest Model Training";;
  print "==========================================";;
  try_except
    (train_and_export_model;;
     print (nl +:+ "Next steps:");;
     print "1. Use the ONNX model with onnxruntime-web in your extension";;
     print "2. Update the JavaScript implementation with the extracted tree data";;
     print "3. For production, train on real user behavior data")
    handler.

(** Lines 8-20: the imports of third-party packages, in order ([os] and
    [json] belong to the standard library), then the two directories. *)
Definition third_party_imports : list string :=
  ["numpy"; "pandas"; "sklearn"; "sklearn"; "sklearn"; "skl2onnx"; "skl2onnx"].

Fixpoint import_all (pkgs : list string) : prog L () :=
  match pkgs with
  | [] => mret ()
  | p :: rest => py_import p;; import_all rest
  end.

Definition module_level : prog L () :=
  import_all third_party_imports;;
  os_makedirs "onnx";;
  os_makedirs "model_data".

(** The whole file, run as a script. *)
Definition script : prog L () := module_level;; main.

(** What the operating system sees: a normal end gives status 0, an
    uncaught exception the status [exit_status] says. *)
Record outcome := {
  final : world L;
  exit_code : Z;
  uncaught : option exn
}.

Definition run_script (w : world L) : outcome :=
  match script w with
  | (inr _, w') => {| final := w'; exit_code := 0; uncaught := None |}
  | (inl e, w') => {| final := w'; exit_code := exit_status e; uncaught := Some e |}
  end.

(** What a user can observe of a run: the exit status, the exception that
    ended it if any (on standard error as a traceback, except for a
    [SystemExit]), the console and the file system. *)
Definition observable (o : outcome)
  : Z * option exn * list string * gmap string string * gset string :=
  (exit_code o, uncaught o, stdout (final o), files (final o), dirs (final o)).

End Script.

(** ** What the statements assume of the libraries *)

(** A sampler called with [size=n] returns an array of [n] draws. *)
Definition np_sizes (L : Libs) : Prop :=
  (∀ s n st, length (np_exponential L s n st).1 = n)
  ∧ (∀ r p n st, length (np_negative_binomial L r p n st).1 = n)
  ∧ (∀ a b n st, length (np_beta L a b n st).1 = n)
  ∧ (∀ lam n st, length (np_poisson L lam n st).1 = n).

(** scikit-learn's split of [n] rows with a fractional [test_size] puts
    [ceil(test_size * n)] rows in the test set (the product being the
    float64 one) and the remaining rows in the training set. *)
Definition split_sizes (L : Libs) : Prop :=
  ∀ X y ts seed X_train X_test y_train y_test,
    train_test_split L X y ts seed = inr (X_train, X_test, y_train, y_test) →
    ∃ k, F64.ceil (F64.mul ts (F64.of_Z (Z.of_nat (nrows X)))) = Some k
         ∧ nrows X_test = Z.to_nat k
         ∧ nrows X_train = (nrows X - nrows X_test)%nat.

(** A fitted forest holds [n_estimators] trees and one importance per
    column of the training frame. *)
Definition forest_sizes (L : Libs) : Prop :=
  ∀ est X y m, rf_fit L est X y = inr m →
    length (estimators_ L m) = n_estimators est
    ∧ length (feature_importances_ L m) = length (columns X).



(** Serialisations are never empty. *)
Definition onnx_nonempty (L : Libs) : Prop :=
  ∀ m, SerializeToString L m ≠ EmptyString.
Definition json_nonempty (L : Libs) : Prop :=
  ∀ j indent, json_dumps L j indent ≠ EmptyString.

(** ** A small executable instance of the libraries

    It lets the script run inside Rocq on concrete worlds.  The samplers
    cycle through four kinds of rows; the split keeps the order of the
    rows; the forest is a fixed one. *)

Module Reference.

Definition pick {A : Type} (st : Z) (i : nat) (v0 v1 v2 v3 : A) : A :=
  match (st + Z.of_nat i) mod 4 with
  | 0 => v0
  | 1 => v1
  | 2 => v2
  | _ => v3
  end.

Definition draws {A : Type} (n : nat) (st : Z) (v0 v1 v2 v3 : A) : list A * Z :=
  ((λ i, pick st i v0 v1 v2 v3) <$> seq 0 n, st + Z.of_nat n).

Definition exponential (scale : float) (n : nat) (st : Z) : list float * Z :=
  let big := F64.mul scale (F64.of_Z 3) in
  let small := F64.mul scale (F64.decimal 1 2) in
  let long := F64.ltb (F64.of_Z 200) scale in
  draws n st big small (if long then big else small) (if long then small else big).

Definition negative_binomial (r p : float) (n : nat) (st : Z) : list Z * Z :=
  let many := F64.ltb (F64.of_Z 4) r in
  draws n st (if many then 60 else 0) 3 (if many then 3 else 0)
        (if many then 60 else 0).

Definition beta (a b : float) (n : nat) (st : Z) : list float * Z :=
  draws n st (F64.decimal 9 10) (F64.decimal 1 2) (F64.decimal 1 2) (F64.decimal 1 2).

Definition poisson (lam : float) (n : nat) (st : Z) : list Z * Z :=
  draws n st 7 1 1 1.

Definition take_rows (n : nat) (df : DataFrame) : DataFrame :=
  {| timeSpent := take n (timeSpent df); scrollCount := take n (scrollCount df);
     scrollDepth := take n (scrollDepth df); clickCount := take n (clickCount df);
     tabSwitches := take n (tabSwitches df);
     videoWatchTime := take n (videoWatchTime df) |}.

Definition drop_rows (n : nat) (df : DataFrame) : DataFrame :=
  {| timeSpent := drop n (timeSpent df); scrollCount := drop n (scrollCount df);
     scrollDepth := drop n (scrollDepth df); clickCount := drop n (clickCount df);
     tabSwitches := drop n (tabSwitches df);
     videoWatchTime := drop n (videoWatchTime df) |}.

Definition split (X : DataFrame) (y : list Z) (ts : float) (seed : Z)
  : exn + (DataFrame * DataFrame * list Z * list Z) :=
  match F64.ceil (F64.mul ts (F64.of_Z (Z.of_nat (nrows X)))) with
  | Some k =>
      let n_test := Z.to_nat k in
      let n_train := (nrows X - n_test)%nat in
      if decide (n_train = 0%nat) then
        inl (ValueError "the resulting train set will be empty")
      else inr (take_rows n_train X, drop_rows n_train X,
                take n_train y, drop n_train y)
  | None => inl (Exn "OverflowError" true "cannot convert float infinity to integer"
                      NotSpecial)
  end.

Record forest := { importances : list float; trees : list nat }.

Definition fit (est : RandomForestClassifier) (X : DataFrame) (y : list Z)
  : exn + forest :=
  inr {| importances := [w_timeSpent; w_scrollCount; w_scrollDepth;
                         w_clickCount; w_tabSwitches; w_videoWatchTime];
         trees := seq 0 (n_estimators est) |}.

Definition predict (m : forest) (X : DataFrame) : exn + list Z := inr (labels X).

Definition accuracy (y_true y_pred : list Z) : exn + float :=
  let hits := length (filter (λ p, p.1 = p.2) (zip y_true y_pred)) in
  inr (F64.div (F64.of_Z (Z.of_nat hits)) (F64.of_Z (Z.of_nat (length y_true)))).

Definition show_float (x : float) : string :=
  match x with
  | S754_finite s m e =>
      (if s then "-0x" else "0x") +:+ pretty (Zpos m) +:+ "p" +:+ pretty e
  | S754_zero _ => "0"
  | S754_infinity s => if s then "-inf" else "inf"
  | S754_nan => "nan"
  end.

Fixpoint dumps (j : json) : string :=
  match j with
  | JInt z => pretty z
  | JFloat x => show_float x
  | JStr s => "'" +:+ s +:+ "'"
  | JList l =>
      "[" +:+ (fix go (l : list json) : string :=
                 match l with
                 | [] => EmptyString
                 | x :: r => dumps x +:+ "," +:+ go r
                 end) l +:+ "]"
  | JDict kv =>
      "{" +:+ (fix go (kv : list (string * json)) : string :=
                 match kv with
                 | [] => EmptyString
                 | (k, x) :: r => "'" +:+ k +:+ "':" +:+ dumps x +:+ "," +:+ go r
                 end) kv +:+ "}"
  end.

Definition libs : Libs :=
  {| rng_state := Z;
     np_seed := id;
     np_exponential := exponential;
     np_negative_binomial := negative_binomial;
     np_beta := beta;
     np_poisson := poisson;
     fitted_forest := forest;
     decision_tree := nat;
     train_test_split := split;
     rf_fit := fit;
     rf_predict := predict;
     feature_importances_ := importances;
     estimators_ := trees;
     accuracy_score := accuracy;
     classification_report := λ _ _, inr "report";
     onnx_model := nat;
     convert_sklearn := λ m _ _, inr (length (trees m));
     SerializeToString := λ g, "onnx" +:+ pretty g;
     json_dumps := λ j _, dumps j;
     format_4f := show_float |}.

(** A machine with the four packages installed and an empty working
    directory. *)
Definition fresh : world libs :=
  {| rng := 0; site_packages := {["numpy"; "pandas"; "sklearn"; "skl2onnx"]};
     dirs := ∅; files := ∅; denied := ∅; stdout := [] |}.

End Reference.

(** * Properties *)

(** ** Reasoning about the monad *)

Lemma bind_congr {R A B} (c1 c2 : M R A) (k1 k2 : A → M R B) (w : World R) :
  c1 w = c2 w → (∀ a w', k1 a w' = k2 a w') → (c1 ≫= k1) w = (c2 ≫= k2) w.
Proof.
  intros Hc Hk. unfold mbind, M_bind. rewrite Hc.
  destruct (c2 w) as [[e|a] w']; [reflexivity|apply Hk].
Qed.

Lemma bind_inr {R A B} (c : M R A) (k : A → M R B) (w w' : World R) (b : B) :
  (c ≫= k) w = (inr b, w') →
  ∃ a w1, c w = (inr a, w1) ∧ k a w1 = (inr b, w').
Proof.
  unfold mbind, M_bind. destruct (c w) as [[e|a] w1]; [discriminate|].
  intros H. eauto.
Qed.

Lemma bind_inl_eq {R A B} (c : M R A) (k : A → M R B) (w w1 : World R) e :
  c w = (inl e, w1) → (c ≫= k) w = (inl e, w1).
Proof. intros H. unfold mbind, M_bind. rewrite H. reflexivity. Qed.

Lemma bind_inr_eq {R A B} (c : M R A) (k : A → M R B) (w w1 : World R) a :
  c w = (inr a, w1) → (c ≫= k) w = k a w1.
Proof. intros H. unfold mbind, M_bind. rewrite H. reflexivity. Qed.

(** Statements that neither read nor write the generator. *)
Definition rng_blind {R A} (c : M R A) : Prop :=
  ∀ r w, c (set_rng r w) = ((c w).1, set_rng r (c w).2).

Lemma rng_blind_bind {R A B} (c : M R A) (k : A → M R B) :
  rng_blind c → (∀ a, rng_blind (k a)) → rng_blind (c ≫= k).
Proof.
  intros Hc Hk r w. unfold mbind, M_bind. rewrite Hc.
  destruct (c w) as [[e|a] w1]; cbn [fst snd]; [reflexivity|apply Hk].
Qed.

Lemma rng_blind_ret {R A} (a : A) : rng_blind (mret a : M R A).
Proof. intros r w. reflexivity. Qed.

Lemma rng_blind_py_import {R} pkg : rng_blind (py_import pkg : M R ()).
Proof.
  intros r w. unfold py_import. cbn [site_packages set_rng].
  destruct (decide _); reflexivity.
Qed.

Lemma rng_blind_os_makedirs {R} d : rng_blind (os_makedirs d : M R ()).
Proof.
  intros r w. unfold os_makedirs. cbn [dirs files denied set_rng].
  repeat (destruct (decide _); [reflexivity|]). reflexivity.
Qed.

Lemma py_import_present {R} pkg (w : World R) :
  pkg ∈ site_packages w → py_import pkg w = (inr (), w).
Proof. intros H. unfold py_import. destruct (decide _); [reflexivity|done]. Qed.

Lemma py_import_absent {R} pkg (w : World R) :
  pkg ∉ site_packages w → py_import pkg w = (inl (ModuleNotFoundError pkg), w).
Proof. intros H. unfold py_import. destruct (decide _); [done|reflexivity]. Qed.

Lemma lib_inr {R A} (r : exn + A) (w w' : World R) (a : A) :
  lib r w = (inr a, w') → r = inr a ∧ w' = w.
Proof. unfold lib. intros [= -> ->]. auto.  Qed.

Lemma print_inr {R} (s : string) (w w' : World R) u :
  print s w = (inr u, w') → w' = printed [s] w.
Proof. unfold print. intros [= _ <-]. reflexivity. Qed.

Lemma write_file_inr {R} (path content : string) (w w' : World R) u :
  write_file path content w = (inr u, w') →
  files w' = <[path := content]> (files w)
  ∧ dirs w' = dirs w ∧ denied w' = denied w.
Proof.
  unfold write_file. repeat destruct (decide _); try discriminate.
  intros [= _ <-]. auto.
Qed.

(** ** The constants are the binary64 numbers nearest to their decimals *)

Definition within (x : float) (q tol : Q) : bool :=
  match Qcompare (Qabs (F64.toQ x - q)) tol with
  | Gt => false
  | _ => true
  end.

(** A literal with mantissa in [2^52, 2^53) and exponent [e] is correctly
    rounded when it lies within [2^(e-1)] of the decimal. *)
Lemma literals_correctly_rounded :
  within w_timeSpent (3 # 10) (Qpower 2 (-55)) = true
  ∧ within w_scrollCount (2 # 10) (Qpower 2 (-56)) = true
  ∧ within w_scrollDepth (15 # 100) (Qpower 2 (-56)) = true
  ∧ within w_clickCount (1 # 10) (Qpower 2 (-57)) = true
  ∧ within threshold (4 # 10) (Qpower 2 (-55)) = true
  ∧ within scrollDepth_limit (8 # 10) (Qpower 2 (-54)) = true
  ∧ within test_size (2 # 10) (Qpower 2 (-56)) = true
  ∧ w_tabSwitches = w_scrollDepth ∧ w_videoWatchTime = w_clickCount.
Proof. vm_compute. repeat split; reflexivity. Qed.

(** ** The label rule, row by row *)

Definition all_false : Indicators :=
  {| i_timeSpent := false; i_scrollCount := false; i_scrollDepth := false;
     i_clickCount := false; i_tabSwitches := false; i_videoWatchTime := false |}.

Definition all_true : Indicators :=
  {| i_timeSpent := true; i_scrollCount := true; i_scrollDepth := true;
     i_clickCount := true; i_tabSwitches := true; i_videoWatchTime := true |}.

Ltac each_indicator c :=
  destruct c as [[] [] [] [] [] []].

Lemma row_lookups df i s :
  row df i = Some s →
  timeSpent df !! i = Some (s_timeSpent s)
  ∧ scrollCount df !! i = Some (s_scrollCount s)
  ∧ scrollDepth df !! i = Some (s_scrollDepth s)
  ∧ clickCount df !! i = Some (s_clickCount s)
  ∧ tabSwitches df !! i = Some (s_tabSwitches s)
  ∧ videoWatchTime df !! i = Some (s_videoWatchTime s).
Proof.
  unfold row. intros H.
  destruct (timeSpent df !! i); [|discriminate].
  destruct (scrollCount df !! i); [|discriminate].
  destruct (scrollDepth df !! i); [|discriminate].
  destruct (clickCount df !! i); [|discriminate].
  destruct (tabSwitches df !! i); [|discriminate].
  destruct (videoWatchTime df !! i); [|discriminate].
  simpl in H. injection H as <-. simpl. repeat split.
Qed.

(** The vectorised expression of the source computes, at every row, the
    score of that row. *)
Lemma distraction_score_lookup df i s :
  row df i = Some s →
  distraction_score df !! i = Some (score_of (indicators s)).
Proof.
  intros H. apply row_lookups in H as (H1 & H2 & H3 & H4 & H5 & H6).
  unfold distraction_score, series_add, series_mul, series_gt_float,
    series_gt_int, series_lt_int.
  rewrite !lookup_zip_with, !list_lookup_fmap, H1, H2, H3, H4, H5, H6.
  cbn [fmap option_fmap option_map mbind option_bind].
  unfold score_of, indicators, weighted.
  cbn [i_timeSpent i_scrollCount i_scrollDepth i_clickCount i_tabSwitches
       i_videoWatchTime].
  reflexivity.
Qed.

Lemma labels_lookup df i s :
  row df i = Some s →
  labels df !! i = Some (label_of (indicators s)).
Proof.
  intros H. unfold labels, series_astype_int, series_gt_float.
  rewrite !list_lookup_fmap, (distraction_score_lookup _ _ _ H).
  cbn [fmap option_fmap option_map]. unfold label_of. reflexivity.
Qed.

Lemma labels_length df :
  same_lengths df = true → length (labels df) = nrows df.
Proof.
  unfold same_lengths, nrows. intros H.
  repeat (apply andb_prop in H as [H ?]).
  repeat match goal with
         | X : bool_decide _ = true |- _ => apply bool_decide_eq_true in X
         end.
  unfold labels, distraction_score.
  unfold series_astype_int, series_gt_float, series_add, series_mul,
    series_gt_int, series_lt_int.
  rewrite !length_fmap, !length_zip_with, !length_fmap. lia.
Qed.

(** ** Running [generate_synthetic_data] *)

Ltac unfold_monad :=
  unfold mbind, M_bind, mret, M_ret, np_random_seed, np_random, lib, raise.

(** The six columns, as drawn one after the other from the generator
    reseeded with 42. *)
Lemma generate_synthetic_data_inv L n (w w' : world L) df y :
  generate_synthetic_data L n w = (inr (df, y), w') →
  y = labels df
  ∧ same_lengths df = true
  ∧ timeSpent df =
      (np_exponential L (F64.of_Z 300) (default 1000%nat n) (np_seed L 42)).1.
Proof.
  unfold generate_synthetic_data. unfold_monad. cbn [rng set_rng].
  destruct (np_exponential L (F64.of_Z 300) _ _) as [c1 r1].
  destruct (np_negative_binomial L (F64.of_Z 5) _ _ _) as [c2 r2].
  destruct (np_beta L _ _ _ _) as [c3 r3].
  destruct (np_negative_binomial L (F64.of_Z 3) _ _ _) as [c4 r4].
  destruct (np_poisson L _ _ _) as [c5 r5].
  destruct (np_exponential L (F64.of_Z 120) _ _) as [c6 r6].
  cbn [rng set_rng]. unfold pd_DataFrame.
  destruct (same_lengths _) eqn:Hlen; [|discriminate].
  intros [= <- <- <-]. auto.
Qed.

Lemma generate_synthetic_data_nrows L n (w w' : world L) df y :
  np_sizes L →
  generate_synthetic_data L n w = (inr (df, y), w') →
  nrows df = default 1000%nat n ∧ length y = default 1000%nat n.
Proof.
  intros (Hexp & _) H.
  apply generate_synthetic_data_inv in H as (-> & Hlen & Hts).
  rewrite (labels_length _ Hlen). unfold nrows. rewrite Hts, Hexp. auto.
Qed.

(** With samplers that honour [size], the data frame is always built. *)
Lemma generate_synthetic_data_total L n (w : world L) :
  np_sizes L →
  ∃ df y w', generate_synthetic_data L n w = (inr (df, y), w').
Proof.
  intros (Hexp & Hnb & Hbeta & Hpo).
  unfold generate_synthetic_data. unfold_monad. cbn [rng set_rng].
  destruct (np_exponential L (F64.of_Z 300) _ _) as [c1 r1] eqn:E1.
  cbn [rng set_rng].
  destruct (np_negative_binomial L (F64.of_Z 5) _ _ _) as [c2 r2] eqn:E2.
  cbn [rng set_rng].
  destruct (np_beta L _ _ _ _) as [c3 r3] eqn:E3.
  cbn [rng set_rng].
  destruct (np_negative_binomial L (F64.of_Z 3) _ _ _) as [c4 r4] eqn:E4.
  cbn [rng set_rng].
  destruct (np_poisson L _ _ _) as [c5 r5] eqn:E5.
  cbn [rng set_rng].
  destruct (np_exponential L (F64.of_Z 120) _ _) as [c6 r6] eqn:E6.
  cbn [rng set_rng]. unfold pd_DataFrame.
  assert (Hlen : same_lengths
            {| timeSpent := c1; scrollCount := c2; scrollDepth := c3;
               clickCount := c4; tabSwitches := c5; videoWatchTime := c6 |} = true).
  { unfold same_lengths, nrows.
    cbn [timeSpent scrollCount scrollDepth clickCount tabSwitches videoWatchTime].
    pose proof (Hexp (F64.of_Z 300) (default 1000%nat n) (np_seed L 42)) as H1.
    rewrite E1 in H1.
    pose proof (Hnb (F64.of_Z 5) (F64.decimal 5 10) (default 1000%nat n) r1) as H2.
    rewrite E2 in H2.
    pose proof (Hbeta (F64.of_Z 2) (F64.of_Z 2) (default 1000%nat n) r2) as H3.
    rewrite E3 in H3.
    pose proof (Hnb (F64.of_Z 3) (F64.decimal 6 10) (default 1000%nat n) r3) as H4.
    rewrite E4 in H4.
    pose proof (Hpo (F64.of_Z 2) (default 1000%nat n) r4) as H5.
    rewrite E5 in H5.
    pose proof (Hexp (F64.of_Z 120) (default 1000%nat n) r5) as H6.
    rewrite E6 in H6.
    cbn [fst] in *.
    rewrite !bool_decide_eq_true_2 by congruence. reflexivity. }
  rewrite Hlen. eauto.
Qed.

(** ** Facts of binary64 arithmetic about the sixty-four indicator patterns *)

Lemma score_of_all_false : score_of all_false = F64.zero.
Proof. vm_compute. reflexivity. Qed.

Lemma score_of_all_true : score_of all_true = F64.one.
Proof. vm_compute. reflexivity. Qed.

Lemma score_of_range c :
  F64.leb F64.zero (score_of c) = true ∧ F64.leb (score_of c) F64.one = true.
Proof. each_indicator c; vm_compute; split; reflexivity. Qed.

Lemma score_at_threshold c :
  F64.eqb (score_of c) threshold = true → label_of c = 0.
Proof. each_indicator c; vm_compute; congruence. Qed.

Lemma label_of_binary c : label_of c = 0 ∨ label_of c = 1.
Proof. unfold label_of. destruct (F64.ltb _ _); auto. Qed.

Lemma weighted_cases b :
  weighted b w_timeSpent = (if b then w_timeSpent else F64.zero)
  ∧ weighted b w_scrollCount = (if b then w_scrollCount else F64.zero)
  ∧ weighted b w_scrollDepth = (if b then w_scrollDepth else F64.zero)
  ∧ weighted b w_clickCount = (if b then w_clickCount else F64.zero)
  ∧ weighted b w_tabSwitches = (if b then w_tabSwitches else F64.zero)
  ∧ weighted b w_videoWatchTime = (if b then w_videoWatchTime else F64.zero).
Proof. destruct b; vm_compute; repeat split; reflexivity. Qed.

(** The score read with exact decimal arithmetic instead of binary64. *)
Definition decimal_score (c : Indicators) : Q :=
  ((if i_timeSpent c then 3 # 10 else 0)
   + (if i_scrollCount c then 2 # 10 else 0)
   + (if i_scrollDepth c then 15 # 100 else 0)
   + (if i_clickCount c then 1 # 10 else 0)
   + (if i_tabSwitches c then 15 # 100 else 0)
   + (if i_videoWatchTime c then 1 # 10 else 0))%Q.

(** The roundings of binary64 never change the side of the threshold on
    which a score falls. *)
Lemma label_of_decimal c :
  label_of c = if Qle_bool (decimal_score c) (4 # 10) then 0 else 1.
Proof. each_indicator c; vm_compute; reflexivity. Qed.

Lemma distraction_score_length df :
  same_lengths df = true → length (distraction_score df) = nrows df.
Proof.
  unfold same_lengths, nrows. intros H.
  repeat (apply andb_prop in H as [H ?]).
  repeat match goal with
         | X : bool_decide _ = true |- _ => apply bool_decide_eq_true in X
         end.
  unfold distraction_score.
  unfold series_gt_float, series_add, series_mul, series_gt_int, series_lt_int.
  rewrite !length_zip_with, !length_fmap. lia.
Qed.

Lemma row_is_Some df i :
  same_lengths df = true → (i < nrows df)%nat → is_Some (row df i).
Proof.
  unfold same_lengths, nrows. intros H Hi.
  repeat (apply andb_prop in H as [H ?]).
  repeat match goal with
         | X : bool_decide _ = true |- _ => apply bool_decide_eq_true in X
         end.
  unfold row.
  destruct (lookup_lt_is_Some_2 (timeSpent df) i) as [a ->]; [lia|].
  destruct (lookup_lt_is_Some_2 (scrollCount df) i) as [b ->]; [lia|].
  destruct (lookup_lt_is_Some_2 (scrollDepth df) i) as [c ->]; [lia|].
  destruct (lookup_lt_is_Some_2 (clickCount df) i) as [d ->]; [lia|].
  destruct (lookup_lt_is_Some_2 (tabSwitches df) i) as [e ->]; [lia|].
  destruct (lookup_lt_is_Some_2 (videoWatchTime df) i) as [f ->]; [lia|].
  simpl. eauto.
Qed.

(** Every entry of the score column is the score of a row. *)
Lemma distraction_score_entry df i sc :
  same_lengths df = true →
  distraction_score df !! i = Some sc →
  ∃ s, row df i = Some s ∧ sc = score_of (indicators s).
Proof.
  intros Hlen Hsc.
  destruct (row_is_Some df i Hlen) as [s Hs].
  { rewrite <- (distraction_score_length df Hlen). eapply lookup_lt_Some, Hsc. }
  exists s. split; [exact Hs|].
  rewrite (distraction_score_lookup _ _ _ Hs) in Hsc. congruence.
Qed.

Lemma labels_entry df i l :
  same_lengths df = true →
  labels df !! i = Some l →
  ∃ s, row df i = Some s ∧ l = label_of (indicators s).
Proof.
  intros Hlen Hl.
  destruct (row_is_Some df i Hlen) as [s Hs].
  { rewrite <- (labels_length df Hlen). eapply lookup_lt_Some, Hl. }
  exists s. split; [exact Hs|].
  rewrite (labels_lookup _ _ _ Hs) in Hl. congruence.
Qed.

(** ** Concrete runs used below *)

Module Demo.

(** Eight rows drawn by the reference samplers. *)
Definition out := generate_synthetic_data Reference.libs (Some 8%nat) Reference.fresh.

Definition df : DataFrame :=
  Eval vm_compute in
    match out.1 with
    | inr p => p.1
    | inl _ => Build_DataFrame [] [] [] [] [] []
    end.

Definition y : list Z := Eval vm_compute in labels df.

Lemma out_eq : out = (inr (df, y), out.2).
Proof. vm_compute. reflexivity. Defined.

(** Row 0 has exactly the [timeSpent] and [clickCount] indicators, row 2 has
    all six, row 3 has none. *)
Definition row0 : Sample :=
  Eval vm_compute in default (Build_Sample F64.zero 0 F64.zero 0 0 F64.zero) (row df 0).
Definition row2 : Sample :=
  Eval vm_compute in default (Build_Sample F64.zero 0 F64.zero 0 0 F64.zero) (row df 2).
Definition row3 : Sample :=
  Eval vm_compute in default (Build_Sample F64.zero 0 F64.zero 0 0 F64.zero) (row df 3).

End Demo.

(** ** The label rule on generated data *)

(** C1: in the data returned by [generate_synthetic_data], a row for which
    all six indicator conditions are false gets label 0, and a row for which
    all six are true has score 1.0 and gets label 1. *)
Theorem label_rule_extremes L n (w w' : world L) df y i s :
  generate_synthetic_data L n w = (inr (df, y), w') →
  row df i = Some s →
  (indicators s = all_false → y !! i = Some 0)
  ∧ (indicators s = all_true →
     distraction_score df !! i = Some F64.one
     ∧ F64.ltb threshold F64.one = true
     ∧ y !! i = Some 1).
Proof.
  intros H Hrow. apply generate_synthetic_data_inv in H as (-> & _ & _).
  rewrite (labels_lookup _ _ _ Hrow), (distraction_score_lookup _ _ _ Hrow).
  split; intros ->.
  - reflexivity.
  - rewrite score_of_all_true. repeat split.
Qed.

Lemma label_rule_extremes_witness :
  (Demo.y !! 3%nat = Some 0)
  ∧ (distraction_score Demo.df !! 2%nat = Some F64.one
     ∧ F64.ltb threshold F64.one = true
     ∧ Demo.y !! 2%nat = Some 1).
Proof.
  split.
  - apply (proj1 (label_rule_extremes Reference.libs (Some 8%nat) Reference.fresh
                    Demo.out.2 Demo.df Demo.y 3 Demo.row3 Demo.out_eq eq_refl)).
    vm_compute. reflexivity.
  - apply (proj2 (label_rule_extremes Reference.libs (Some 8%nat) Reference.fresh
                    Demo.out.2 Demo.df Demo.y 2 Demo.row2 Demo.out_eq eq_refl)).
    vm_compute. reflexivity.
Defined.

(** C9: the threshold is strict.  A row whose score equals 0.4 gets label 0;
    this is the case of a row with exactly the [timeSpent] and [clickCount]
    indicators, whose score 0.3 + 0.1 is 0.4 in binary64. *)
Theorem threshold_is_strict L n (w w' : world L) df y i s :
  generate_synthetic_data L n w = (inr (df, y), w') →
  row df i = Some s →
  (∀ sc, distraction_score df !! i = Some sc →
         F64.eqb sc threshold = true → y !! i = Some 0)
  ∧ ((decimal_score (indicators s) == 4 # 10)%Q → y !! i = Some 0)
  ∧ (indicators s =
       {| i_timeSpent := true; i_scrollCount := false; i_scrollDepth := false;
          i_clickCount := true; i_tabSwitches := false;
          i_videoWatchTime := false |} →
     distraction_score df !! i = Some threshold ∧ y !! i = Some 0).
Proof.
  intros H Hrow. apply generate_synthetic_data_inv in H as (-> & _ & _).
  rewrite (labels_lookup _ _ _ Hrow), (distraction_score_lookup _ _ _ Hrow).
  split; [|split].
  - intros sc [= <-] Heq. f_equal. apply score_at_threshold, Heq.
  - intros Heq. f_equal. rewrite label_of_decimal.
    replace (Qle_bool _ _) with true; [reflexivity|].
    symmetry. apply Qle_bool_iff. rewrite Heq. apply Qle_refl.
  - intros ->. split; reflexivity.
Qed.

Lemma threshold_is_strict_witness :
  distraction_score Demo.df !! 0%nat = Some threshold ∧ Demo.y !! 0%nat = Some 0.
Proof.
  apply (proj2 (proj2 (threshold_is_strict Reference.libs (Some 8%nat)
                  Reference.fresh Demo.out.2 Demo.df Demo.y 0 Demo.row0
                  Demo.out_eq eq_refl))).
  vm_compute. reflexivity.
Defined.

(** C10: the weights add up to exactly 1.0 (as decimals, and in binary64 in
    the order of the source); an indicator contributes 0 or its weight;
    every score of the generated data lies in [0, 1] and every label is 0
    or 1.  There is one score and one label per row. *)
Theorem score_in_unit_interval L n (w w' : world L) df y :
  generate_synthetic_data L n w = (inr (df, y), w') →
  ((3 # 10) + (2 # 10) + (15 # 100) + (1 # 10) + (15 # 100) + (1 # 10) == 1)%Q
  ∧ F64.add (F64.add (F64.add (F64.add (F64.add w_timeSpent w_scrollCount)
      w_scrollDepth) w_clickCount) w_tabSwitches) w_videoWatchTime = F64.one
  ∧ (∀ b, weighted b w_timeSpent = (if b then w_timeSpent else F64.zero)
          ∧ weighted b w_scrollCount = (if b then w_scrollCount else F64.zero)
          ∧ weighted b w_scrollDepth = (if b then w_scrollDepth else F64.zero)
          ∧ weighted b w_clickCount = (if b then w_clickCount else F64.zero)
          ∧ weighted b w_tabSwitches = (if b then w_tabSwitches else F64.zero)
          ∧ weighted b w_videoWatchTime = (if b then w_videoWatchTime else F64.zero))
  ∧ length (distraction_score df) = nrows df
  ∧ length y = nrows df
  ∧ (∀ i sc, distraction_score df !! i = Some sc →
             F64.leb F64.zero sc = true ∧ F64.leb sc F64.one = true)
  ∧ (∀ i l, y !! i = Some l → l = 0 ∨ l = 1).
Proof.
  intros H. apply generate_synthetic_data_inv in H as (-> & Hlen & _).
  split; [reflexivity|].
  split; [vm_compute; reflexivity|].
  split; [apply weighted_cases|].
  split; [apply distraction_score_length, Hlen|].
  split; [apply labels_length, Hlen|].
  split.
  - intros i sc Hsc.
    destruct (distraction_score_entry _ _ _ Hlen Hsc) as (s & _ & ->).
    apply score_of_range.
  - intros i l Hl.
    destruct (labels_entry _ _ _ Hlen Hl) as (s & _ & ->).
    apply label_of_binary.
Qed.

Lemma score_in_unit_interval_witness :
  length (distraction_score Demo.df) = 8%nat
  ∧ length Demo.y = 8%nat
  ∧ (∀ i sc, distraction_score Demo.df !! i = Some sc →
             F64.leb F64.zero sc = true ∧ F64.leb sc F64.one = true)
  ∧ (∀ i l, Demo.y !! i = Some l → l = 0 ∨ l = 1).
Proof.
  pose proof (score_in_unit_interval Reference.libs (Some 8%nat) Reference.fresh
                Demo.out.2 Demo.df Demo.y Demo.out_eq)
    as (_ & _ & _ & H1 & H2 & H3 & H4).
  split; [exact H1|]. split; [exact H2|]. split; assumption.
Defined.

(** ** The reference instance meets the assumptions *)

Lemma reference_np_sizes : np_sizes Reference.libs.
Proof.
  repeat split; intros; cbn;
    unfold Reference.exponential, Reference.negative_binomial, Reference.beta,
      Reference.poisson, Reference.draws; cbn [fst];
    rewrite length_fmap, length_seq; reflexivity.
Qed.

Lemma reference_split_sizes : split_sizes Reference.libs.
Proof.
  intros X y ts seed X_train X_test y_train y_test. cbn.
  unfold Reference.split.
  destruct (F64.ceil _) as [k|]; [|discriminate].
  destruct (decide _) as [|Hne]; [discriminate|].
  intros [= <- <- <- <-]. exists k. split; [reflexivity|].
  unfold nrows in *. cbn. rewrite length_drop, length_take. lia.
Qed.

Lemma reference_forest_sizes : forest_sizes Reference.libs.
Proof.
  intros est X y m. cbn. unfold Reference.fit. intros [= <-]. cbn.
  rewrite length_seq. auto.
Qed.


Lemma reference_onnx_nonempty : onnx_nonempty Reference.libs.
Proof. intros m. cbn. discriminate. Qed.

Lemma pretty_N_go_nonempty (x : N) (s : string) :
  s ≠ EmptyString → pretty_N_go x s ≠ EmptyString.
Proof.
  revert s. induction (N.lt_wf_0 x) as [x _ IH]. intros s Hs.
  destruct (decide (x = 0%N)) as [->|Hx].
  - rewrite pretty_N_go_0. exact Hs.
  - rewrite pretty_N_go_step by lia. apply IH.
    + apply N.div_lt; lia.
    + discriminate.
Qed.

Lemma pretty_Z_nonempty (z : Z) : pretty z ≠ EmptyString.
Proof.
  assert (HN : ∀ p, pretty (Npos p) ≠ EmptyString).
  { intros p. unfold pretty, pretty_N.
    destruct (decide _) as [|_]; [discriminate|].
    rewrite pretty_N_go_step by lia. apply pretty_N_go_nonempty. discriminate. }
  destruct z as [|p|p]; unfold pretty, pretty_Z.
  - discriminate.
  - apply HN.
  - discriminate.
Qed.

Lemma reference_json_nonempty : json_nonempty Reference.libs.
Proof.
  intros j indent. cbn. destruct j as [z|x|s|l|kv]; cbn.
  - apply pretty_Z_nonempty.
  - destruct x as [| [] | | [] m e]; discriminate.
  - discriminate.
  - discriminate.
  - discriminate.
Qed.

(** ** The default sample count *)

(** C3 as stated does not hold: called without a sample count, the function
    draws 1000 samples (the default of line 22), not 2000.  Here with the
    reference samplers. *)
Lemma default_sample_count_not_2000 :
  ∃ df y w',
    generate_synthetic_data Reference.libs None Reference.fresh = (inr (df, y), w')
    ∧ nrows df = 1000%nat ∧ length y = 1000%nat ∧ nrows df ≠ 2000%nat.
Proof.
  destruct (generate_synthetic_data_total Reference.libs None Reference.fresh
              reference_np_sizes) as (df & y & w' & E).
  exists df, y, w'. split; [exact E|].
  destruct (generate_synthetic_data_nrows _ _ _ _ _ _ reference_np_sizes E)
    as [H1000 Hy].
  cbn [default] in H1000, Hy. rewrite H1000. repeat split; [exact Hy|discriminate].
Qed.

(** ** Determinism *)

(** Reseeding makes the data independent of the world in which the
    function starts. *)
Lemma generate_synthetic_data_any_world L n (w1 w2 : world L) :
  (generate_synthetic_data L n w1).1 = (generate_synthetic_data L n w2).1.
Proof.
  unfold generate_synthetic_data. unfold_monad. cbn [rng set_rng].
  destruct (np_exponential L (F64.of_Z 300) _ _) as [c1 r1]. cbn [rng set_rng].
  destruct (np_negative_binomial L (F64.of_Z 5) _ _ _) as [c2 r2]. cbn [rng set_rng].
  destruct (np_beta L _ _ _ _) as [c3 r3]. cbn [rng set_rng].
  destruct (np_negative_binomial L (F64.of_Z 3) _ _ _) as [c4 r4]. cbn [rng set_rng].
  destruct (np_poisson L _ _ _) as [c5 r5]. cbn [rng set_rng].
  destruct (np_exponential L (F64.of_Z 120) _ _) as [c6 r6]. cbn [rng set_rng].
  unfold pd_DataFrame. destruct (same_lengths _); reflexivity.
Qed.

Lemma generate_synthetic_data_reseeds L n (w : world L) r :
  generate_synthetic_data L n (set_rng r w) = generate_synthetic_data L n w.
Proof. reflexivity. Qed.

Lemma train_and_export_model_reseeds L (w : world L) r :
  train_and_export_model L (set_rng r w) = train_and_export_model L w.
Proof. reflexivity. Qed.

Lemma main_reseeds L (w : world L) r : main L (set_rng r w) = main L w.
Proof. reflexivity. Qed.

Lemma rng_blind_import_all L pkgs : rng_blind (import_all L pkgs).
Proof.
  induction pkgs as [|p pkgs IH]; cbn [import_all].
  - apply rng_blind_ret.
  - apply rng_blind_bind; [apply rng_blind_py_import|intros _; exact IH].
Qed.

Lemma rng_blind_module_level L : rng_blind (module_level L).
Proof.
  unfold module_level.
  apply rng_blind_bind; [apply rng_blind_import_all|intros _].
  apply rng_blind_bind; [apply rng_blind_os_makedirs|intros _].
  apply rng_blind_os_makedirs.
Qed.

Lemma run_script_reseeds L (w : world L) r1 r2 :
  observable L (run_script L (set_rng r1 w))
  = observable L (run_script L (set_rng r2 w)).
Proof.
  unfold observable, run_script, script.
  unfold mbind, M_bind.
  rewrite (rng_blind_module_level L r1 w), (rng_blind_module_level L r2 w).
  destruct (module_level L w) as [[e|[]] w0]; cbn [fst snd]; [reflexivity|].
  rewrite !main_reseeds. reflexivity.
Qed.

(** C2: the feature table and the labels do not depend on the world in
    which [generate_synthetic_data] is called; the whole pipeline and the
    whole script, started with two different states of the global generator
    in otherwise equal worlds, end alike: the pipeline with the same result
    and the same world, the script with the same exit status, the same
    standard output (which carries the accuracy and the classification
    report) and the same files. *)
Theorem pipeline_deterministic L n (w1 w2 w : world L) (r1 r2 : rng_state L) :
  (generate_synthetic_data L n w1).1 = (generate_synthetic_data L n w2).1
  ∧ train_and_export_model L (set_rng r1 w) = train_and_export_model L (set_rng r2 w)
  ∧ observable L (run_script L (set_rng r1 w))
    = observable L (run_script L (set_rng r2 w)).
Proof.
  split; [apply generate_synthetic_data_any_world|].
  split.
  - rewrite !train_and_export_model_reseeds. reflexivity.
  - apply run_script_reseeds.
Qed.

(** ** Libraries with another fit *)

(** The libraries with another implementation of [fit]. *)
Definition with_rf_fit (L : Libs)
    (fit : RandomForestClassifier → DataFrame → list Z → exn + fitted_forest L)
  : Libs :=
  {| rng_state := rng_state L;
     np_seed := np_seed L;
     np_exponential := np_exponential L;
     np_negative_binomial := np_negative_binomial L;
     np_beta := np_beta L;
     np_poisson := np_poisson L;
     fitted_forest := fitted_forest L;
     decision_tree := decision_tree L;
     train_test_split := train_test_split L;
     rf_fit := fit;
     rf_predict := rf_predict L;
     feature_importances_ := feature_importances_ L;
     estimators_ := estimators_ L;
     accuracy_score := accuracy_score L;
     classification_report := classification_report L;
     onnx_model := onnx_model L;
     convert_sklearn := convert_sklearn L;
     SerializeToString := SerializeToString L;
     json_dumps := json_dumps L;
     format_4f := format_4f L |}.

(** A [fit] that honours the four hyperparameters of the script and fails
    on any other. *)
Definition strict_fit (est : RandomForestClassifier) (X : DataFrame) (y : list Z)
  : exn + Reference.forest :=
  if decide (n_estimators est = 100%nat ∧ max_depth est = 10%nat
             ∧ min_samples_split est = 5%nat ∧ random_state est = 42)
  then Reference.fit est X y
  else inl (ValueError "unexpected hyperparameters").

(** ** The top-level handler *)

Definition banner : list string :=
  ["Focus Nudge - Random Forest Model Training";
   "=========================================="].

(** An exception of the pipeline that derives from [Exception] is caught:
    the script goes on normally after printing the message and the hint,
    whatever the class of the exception, and the files written before the
    failure stay as they are. *)
Lemma main_catches L (w w1 : world L) e :
  train_and_export_model L (printed banner w) = (inl e, w1) →
  exn_is_Exception e = true →
  ∃ w2, main L w = (inr (), w2)
        ∧ files w2 = files w1 ∧ dirs w2 = dirs w1
        ∧ stdout w2 = stdout w1 ++
            ["Error: " +:+ exn_msg e;
             nl +:+ "To run this script, you need the following packages:";
             "pip install numpy pandas scikit-learn skl2onnx"].
Proof.
  intros Hrun Hexc. unfold main, try_except.
  unfold mbind at 1 2, M_bind at 1 2. unfold print at 1 2. cbn [stdout rng site_packages dirs files denied].
  unfold mbind at 1, M_bind at 1.
  unfold printed, banner in Hrun. rewrite <- app_assoc. cbn [app].
  rewrite Hrun, Hexc. unfold handler, mbind, M_bind, print.
  cbn [stdout rng site_packages dirs files denied].
  eexists. split; [reflexivity|]. cbn [stdout rng site_packages dirs files denied].
  rewrite <- !app_assoc. auto.
Qed.

(** Exceptions outside the [Exception] hierarchy pass through. *)
Lemma main_lets_through L (w w1 : world L) e :
  train_and_export_model L (printed banner w) = (inl e, w1) →
  exn_is_Exception e = false →
  main L w = (inl e, w1).
Proof.
  intros Hrun Hexc. unfold main, try_except.
  unfold mbind at 1 2, M_bind at 1 2. unfold print at 1 2. cbn [stdout rng site_packages dirs files denied].
  unfold mbind at 1, M_bind at 1.
  unfold printed, banner in Hrun. rewrite <- app_assoc. cbn [app].
  rewrite Hrun, Hexc. reflexivity.
Qed.

Lemma import_all_absent L pkgs (w : world L) pkg :
  pkg ∈ pkgs → pkg ∉ site_packages w →
  ∃ p, p ∈ pkgs ∧ (p ∉ site_packages w)
       ∧ import_all L pkgs w = (inl (ModuleNotFoundError p), w).
Proof.
  induction pkgs as [|q pkgs IH]; intros Hin Hmissing.
  - apply elem_of_nil in Hin as [].
  - cbn [import_all].
    destruct (decide (q ∈ site_packages w)) as [Hq|Hq].
    + assert (Hin' : pkg ∈ pkgs).
      { apply elem_of_cons in Hin as [->|Hin]; [done|exact Hin]. }
      destruct (IH Hin' Hmissing) as (p & Hp & Hpm & Hrun).
      exists p. split; [apply elem_of_cons; auto|]. split; [exact Hpm|].
      rewrite (bind_inr_eq _ _ w w ()); [exact Hrun|].
      apply py_import_present, Hq.
    + exists q. split; [apply elem_of_cons; auto|]. split; [exact Hq|].
      apply bind_inl_eq, py_import_absent, Hq.
Qed.

Lemma import_all_present L pkgs (w : world L) :
  (∀ p, p ∈ pkgs → p ∈ site_packages w) → import_all L pkgs w = (inr (), w).
Proof.
  induction pkgs as [|q pkgs IH]; intros Hall; cbn [import_all].
  - reflexivity.
  - rewrite (bind_inr_eq _ _ w w ()).
    + apply IH. intros p Hp. apply Hall, elem_of_cons. auto.
    + apply py_import_present, Hall, elem_of_cons. auto.
Qed.

(** C8 does not hold for a missing dependency: the imports are executed at
    lines 8-14, before the [try] of line 154.  When one of the four
    packages is absent, the script ends with an uncaught
    [ModuleNotFoundError] and exit status 1, and has printed nothing:
    neither the message nor the hint of the handler. *)
Theorem missing_package_escapes_handler L (w : world L) pkg :
  pkg ∈ third_party_imports → pkg ∉ site_packages w →
  ∃ p, p ∈ third_party_imports ∧ (p ∉ site_packages w)
       ∧ run_script L w
         = {| final := w; exit_code := 1;
              uncaught := Some (ModuleNotFoundError p) |}.
Proof.
  intros Hin Hmissing.
  destruct (import_all_absent L third_party_imports w pkg Hin Hmissing)
    as (p & Hp & Hpm & Himp).
  exists p. split; [exact Hp|]. split; [exact Hpm|].
  unfold run_script, script, module_level.
  rewrite (bind_inl_eq _ _ w w (ModuleNotFoundError p)); [reflexivity|].
  apply bind_inl_eq. exact Himp.
Qed.

Module Broken.

(** A machine on which skl2onnx was never installed. *)
Definition no_skl2onnx : world Reference.libs :=
  {| rng := 0; site_packages := {["numpy"; "pandas"; "sklearn"]};
     dirs := ∅; files := ∅; denied := ∅; stdout := [] |}.

End Broken.

Lemma missing_package_escapes_handler_witness :
  ∃ p, p ∈ third_party_imports ∧ (p ∉ site_packages Broken.no_skl2onnx)
       ∧ run_script Reference.libs Broken.no_skl2onnx
         = {| final := Broken.no_skl2onnx; exit_code := 1;
              uncaught := Some (ModuleNotFoundError p) |}.
Proof.
  apply (missing_package_escapes_handler Reference.libs Broken.no_skl2onnx
           "skl2onnx").
  - unfold third_party_imports. set_solver.
  - intros Hin. pose proof (bool_decide_eq_true_2 _ Hin) as Hb.
    vm_compute in Hb. discriminate Hb.
Defined.

(** ** Successful runs of the pipeline *)

(** Generating the data touches the generator only. *)
Lemma generate_synthetic_data_frame L n (w w' : world L) r :
  generate_synthetic_data L n w = (r, w') →
  files w' = files w ∧ dirs w' = dirs w ∧ denied w' = denied w
  ∧ stdout w' = stdout w.
Proof.
  unfold generate_synthetic_data. unfold_monad. cbn [rng set_rng].
  destruct (np_exponential L (F64.of_Z 300) _ _) as [c1 r1]. cbn [rng set_rng].
  destruct (np_negative_binomial L (F64.of_Z 5) _ _ _) as [c2 r2]. cbn [rng set_rng].
  destruct (np_beta L _ _ _ _) as [c3 r3]. cbn [rng set_rng].
  destruct (np_negative_binomial L (F64.of_Z 3) _ _ _) as [c4 r4]. cbn [rng set_rng].
  destruct (np_poisson L _ _ _) as [c5 r5]. cbn [rng set_rng].
  destruct (np_exponential L (F64.of_Z 120) _ _) as [c6 r6]. cbn [rng set_rng].
  unfold pd_DataFrame. destruct (same_lengths _); intros [= <- <-]; auto.
Qed.

(** The dictionary built by the loop of lines 107-110, without the prints. *)
Fixpoint importance_entries (feature_importance : list float)
    (items : list (nat * string)) (d : list (string * float))
  : option (list (string * float)) :=
  match items with
  | [] => Some d
  | (i, feature) :: rest =>
      x ← feature_importance !! i;
      importance_entries feature_importance rest (dict_set feature x d)
  end.

Lemma importance_loop_inr L fi items d (w w' : world L) d' :
  importance_loop L fi items d w = (inr d', w') →
  importance_entries fi items d = Some d'
  ∧ files w' = files w ∧ dirs w' = dirs w ∧ denied w' = denied w.
Proof.
  revert d w. induction items as [|[i feature] rest IH]; intros d w; cbn.
  - unfold mret, M_ret. intros [= <- <-]. auto.
  - intros H. apply bind_inr in H as (x & w1 & Hget & H).
    unfold getitem in Hget. destruct (fi !! i) as [x'|]; [|discriminate].
    unfold mret, M_ret in Hget. injection Hget as <- <-.
    apply bind_inr in H as (u & w2 & Hp & H).
    apply print_inr in Hp as ->.
    apply IH in H as (Hd & Hf & Hdi & Hde).
    cbn [mbind option_bind]. auto.
Qed.

(** With the six columns of the frame, the loop stores the first six
    importances under the six column names, in order. *)
Lemma importance_entries_columns fi X d :
  importance_entries fi (enumerate (columns X)) [] = Some d →
  d.*1 = columns X ∧ d.*2 = take 6 fi ∧ length d = 6%nat.
Proof.
  cbn.
  destruct fi as [|x0 [|x1 [|x2 [|x3 [|x4 [|x5 fi]]]]]]; try discriminate.
  cbn. intros [= <-]. auto.
Qed.


(** The values that a successful run went through, and the files it
    leaves. *)
Lemma train_and_export_model_success L (w w' : world L) :
  train_and_export_model L w = (inr (), w') →
  ∃ X y X_train X_test y_train y_test fitted d onnx w0 w1,
    generate_synthetic_data L (Some 2000%nat) w0 = (inr (X, y), w1)
    ∧ train_test_split L X y test_size 42 = inr (X_train, X_test, y_train, y_test)
    ∧ rf_fit L model X_train y_train = inr fitted
    ∧ importance_entries (feature_importances_ L fitted) (enumerate (columns X)) []
      = Some d
    ∧ convert_sklearn L fitted
        [("float_input", {| tensor_shape := [None; Some 6%nat] |})] 12 = inr onnx
    ∧ files w' =
        <[trees_path :=
            json_dumps L (JList (imap (tree_data (columns X))
                                      (take 5 (estimators_ L fitted)))) 2]>
          (<[output_path := SerializeToString L onnx]>
             (<[importance_path := json_dumps L (importance_json d) 2]> (files w))).
Proof.
  unfold train_and_export_model. intros H.
  apply bind_inr in H as (u0 & w0 & Hp0 & H). apply print_inr in Hp0 as Hw0.
  apply bind_inr in H as ([X y] & w1 & Hgen & H).
  apply bind_inr in H as ([[[X_train X_test] y_train] y_test] & w2 & Hsplit & H).
  apply lib_inr in Hsplit as [Hsplit ->].
  apply bind_inr in H as (u1 & w3 & Hp1 & H). apply print_inr in Hp1 as Hw3.
  apply bind_inr in H as (u2 & w4 & Hp2 & H). apply print_inr in Hp2 as Hw4.
  apply bind_inr in H as (u3 & w5 & Hp3 & H). apply print_inr in Hp3 as Hw5.
  apply bind_inr in H as (fitted & w6 & Hfit & H).
  apply lib_inr in Hfit as [Hfit ->].
  apply bind_inr in H as (y_pred & w7 & Hpred & H).
  apply lib_inr in Hpred as [Hpred ->].
  apply bind_inr in H as (accuracy & w8 & Hacc & H).
  apply lib_inr in Hacc as [Hacc ->].
  apply bind_inr in H as (u4 & w9 & Hp4 & H). apply print_inr in Hp4 as Hw9.
  apply bind_inr in H as (u5 & w10 & Hp5 & H). apply print_inr in Hp5 as Hw10.
  apply bind_inr in H as (report & w11 & Hrep & H).
  apply lib_inr in Hrep as [Hrep ->].
  apply bind_inr in H as (u6 & w12 & Hp6 & H). apply print_inr in Hp6 as Hw12.
  apply bind_inr in H as (u7 & w13 & Hp7 & H). apply print_inr in Hp7 as Hw13.
  apply bind_inr in H as (d & w14 & Hloop & H).
  apply bind_inr in H as (u8 & w15 & Hwr1 & H).
  apply bind_inr in H as (u9 & w16 & Hp9 & H). apply print_inr in Hp9 as Hw16.
  apply bind_inr in H as (onnx & w17 & Hconv & H).
  apply lib_inr in Hconv as [Hconv ->].
  apply bind_inr in H as (u10 & w18 & Hwr2 & H).
  apply bind_inr in H as (u11 & w19 & Hp11 & H). apply print_inr in Hp11 as Hw19.
  apply bind_inr in H as (u12 & w20 & Hp12 & H). apply print_inr in Hp12 as Hw20.
  apply bind_inr in H as (u13 & w21 & Hwr3 & H).
  apply print_inr in H as Hw'.
  apply generate_synthetic_data_frame in Hgen as Hframe.
  destruct Hframe as (Hf1 & _).
  apply importance_loop_inr in Hloop as (Hd & Hf14 & _).
  apply write_file_inr in Hwr1 as (Hf15 & _).
  apply write_file_inr in Hwr2 as (Hf18 & _).
  apply write_file_inr in Hwr3 as (Hf21 & _).
  exists X, y, X_train, X_test, y_train, y_test, fitted, d, onnx, w0, w1.
  repeat split; try assumption.
  subst. cbn [files printed] in *.
  rewrite Hf21, Hf18, Hf15, Hf14, Hf1. reflexivity.
Qed.

(** ** Arithmetic of the size of the test set *)

(** The ceiling of a number is, or is one more than, any integer within
    one half of it. *)
Lemma ceil_near_round (q : Q) (r : Z) :
  (Qabs (q - inject_Z r) <= 1 # 2)%Q → r <= Qceiling q <= r + 1.
Proof.
  intros H. apply Qabs_Qle_condition in H as [H1 H2].
  pose proof (Qle_ceiling q) as Hu.
  pose proof (Qceiling_lt q) as Hl.
  split.
  - assert (Hq : (inject_Z (r - 1) < inject_Z (Qceiling q))%Q).
    { unfold Z.sub. rewrite inject_Z_plus, inject_Z_opp.
      change (inject_Z 1) with 1%Q. lra. }
    rewrite <- Zlt_Qlt in Hq. lia.
  - assert (Hq : (inject_Z (Qceiling q - 1) < inject_Z (r + 1))%Q).
    { unfold Z.sub in *. rewrite inject_Z_plus, inject_Z_opp in Hl.
      rewrite !inject_Z_plus, inject_Z_opp. change (inject_Z 1) with 1%Q in *. lra. }
    rewrite <- Zlt_Qlt in Hq. lia.
Qed.

(** Rounding keeps the sign. *)
Lemma binary_round_aux_nonneg mx ex lx :
  match binary_round_aux F64.prec F64.emax false mx ex lx with
  | S754_finite s _ _ => s = false
  | _ => True
  end.
Proof.
  unfold binary_round_aux.
  destruct (shr_fexp _ _ _ _ _) as [mrs' e'].
  destruct (shr_fexp _ _ _ _ _) as [mrs'' e''].
  destruct (shr_m mrs''); [exact I| |exact I].
  destruct (Z.leb _ _); [reflexivity|exact I].
Qed.

Lemma of_nat_nonneg (n : nat) :
  match F64.of_Z (Z.of_nat n) with
  | S754_finite s _ _ => s = false
  | _ => True
  end.
Proof.
  unfold F64.of_Z, binary_normalize.
  destruct (Z.of_nat n) as [|p|p] eqn:E; [exact I| |lia].
  unfold binary_round. destruct (shl_align _ _ _) as [mz ez].
  apply binary_round_aux_nonneg.
Qed.

(** The float64 product [test_size * n] is never negative. *)
Lemma toQ_test_size_mul_nonneg (n : nat) :
  (0 <= F64.toQ (F64.mul test_size (F64.of_Z (Z.of_nat n))))%Q.
Proof.
  pose proof (of_nat_nonneg n) as Hn.
  destruct (F64.of_Z (Z.of_nat n)) as [s|s| |s m e]; try (cbn; apply Qle_refl).
  subst s. unfold F64.mul, test_size, SFmul. cbn [xorb].
  pose proof (binary_round_aux_nonneg (Z.pos (7205759403792794 * m)) (-55 + e) loc_Exact) as H.
  destruct (binary_round_aux _ _ _ _ _ _) as [| | |s' m' e']; try (cbn; apply Qle_refl).
  subst s'. unfold F64.toQ. cbn [cond_Zopp].
  apply Qmult_le_0_compat; [|apply Qpower_0_le]; [|]; unfold Qle; cbn; lia.
Qed.

Module Run.

(** A machine on which the packages are installed and the two output
    directories exist, and the pipeline run on it. *)
Definition ready : world Reference.libs :=
  {| rng := 0; site_packages := {["numpy"; "pandas"; "sklearn"; "skl2onnx"]};
     dirs := {["onnx"; "model_data"]}; files := ∅; denied := ∅; stdout := [] |}.

Definition final : world Reference.libs :=
  (train_and_export_model Reference.libs ready).2.

Lemma result_ok : train_and_export_model Reference.libs ready = (inr (), final).
Proof. vm_compute. reflexivity. Qed.

(** The data of the run and its split. *)
Definition X : DataFrame :=
  match (generate_synthetic_data Reference.libs (Some 2000%nat) ready).1 with
  | inr p => p.1
  | inl _ => Build_DataFrame [] [] [] [] [] []
  end.

Definition y : list Z := labels X.

Definition after_data : world Reference.libs :=
  (generate_synthetic_data Reference.libs (Some 2000%nat) ready).2.

Lemma data_ok :
  generate_synthetic_data Reference.libs (Some 2000%nat) ready
  = (inr (X, y), after_data).
Proof. vm_compute. reflexivity. Qed.

Definition X_train : DataFrame := Reference.take_rows 1600 X.
Definition X_test : DataFrame := Reference.drop_rows 1600 X.

Lemma parts_ok :
  train_test_split Reference.libs X y test_size 42
  = inr (X_train, X_test, take 1600 y, drop 1600 y).
Proof. vm_compute. reflexivity. Qed.

Lemma nearest_400 :
  (Qabs (F64.toQ (F64.mul test_size (F64.of_Z (Z.of_nat (nrows X))))
         - inject_Z 400) <= 1 # 2)%Q.
Proof. vm_compute. discriminate. Qed.

End Run.

(** ** The files of a successful run *)

Lemma paths_distinct :
  importance_path ≠ output_path ∧ importance_path ≠ trees_path
  ∧ output_path ≠ trees_path.
Proof. repeat split; discriminate. Qed.

(** C5: after a run of the pipeline that ends normally, the three files
    exist and are not empty; the importance file is the dump of a dictionary
    with exactly six keys, the six feature names; the trees file is the dump
    of a list of exactly five entries, each with an integer [treeIndex]
    and the list of the six feature names. *)
Theorem output_files L (w w' : world L) :
  forest_sizes L → onnx_nonempty L → json_nonempty L →
  train_and_export_model L w = (inr (), w') →
  let names := ["timeSpent"; "scrollCount"; "scrollDepth"; "clickCount";
                "tabSwitches"; "videoWatchTime"] in
  (∃ bytes, files w' !! output_path = Some bytes ∧ bytes ≠ EmptyString)
  ∧ (∃ d : list (string * float),
       files w' !! importance_path
       = Some (json_dumps L (JDict (prod_map id JFloat <$> d)) 2)
       ∧ json_dumps L (JDict (prod_map id JFloat <$> d)) 2 ≠ EmptyString
       ∧ d.*1 = names ∧ length d = 6%nat)
  ∧ (∃ entries,
       files w' !! trees_path = Some (json_dumps L (JList entries) 2)
       ∧ json_dumps L (JList entries) 2 ≠ EmptyString
       ∧ entries =
           (λ i : Z, JDict [("treeIndex", JInt i);
                            ("feature_names", JList (JStr <$> names))])
             <$> [0; 1; 2; 3; 4]).
Proof.
  intros Hforest Honnx Hjson Hrun names.
  apply train_and_export_model_success in Hrun
    as (X & y & X_train & X_test & y_train & y_test & fitted & d & onnx & w0 & w1
        & _ & _ & Hfit & Hd & _ & Hfiles).
  destruct paths_distinct as (Hio & Hit & Hot).
  rewrite Hfiles. split; [|split].
  - exists (SerializeToString L onnx). split; [|apply Honnx].
    rewrite lookup_insert_ne by congruence. apply lookup_insert_eq.
  - exists d. split; [|split; [apply Hjson|]].
    + rewrite !lookup_insert_ne by congruence. apply lookup_insert_eq.
    + apply importance_entries_columns in Hd as (Hk & _ & Hlen). auto.
  - eexists. split; [apply lookup_insert_eq|]. split; [apply Hjson|].
    destruct (Hforest _ _ _ _ Hfit) as [Htrees _].
    destruct (estimators_ L fitted) as [|t0 [|t1 [|t2 [|t3 [|t4 rest]]]]];
      try discriminate Htrees.
    reflexivity.
Qed.

Lemma output_files_witness :
  let names := ["timeSpent"; "scrollCount"; "scrollDepth"; "clickCount";
                "tabSwitches"; "videoWatchTime"] in
  (∃ bytes, files Run.final !! output_path = Some bytes ∧ bytes ≠ EmptyString)
  ∧ (∃ d : list (string * float),
       files Run.final !! importance_path
       = Some (json_dumps Reference.libs (JDict (prod_map id JFloat <$> d)) 2)
       ∧ json_dumps Reference.libs (JDict (prod_map id JFloat <$> d)) 2 ≠ EmptyString
       ∧ d.*1 = names ∧ length d = 6%nat)
  ∧ (∃ entries,
       files Run.final !! trees_path
       = Some (json_dumps Reference.libs (JList entries) 2)
       ∧ json_dumps Reference.libs (JList entries) 2 ≠ EmptyString
       ∧ entries =
           (λ i : Z, JDict [("treeIndex", JInt i);
                            ("feature_names", JList (JStr <$> names))])
             <$> [0; 1; 2; 3; 4]).
Proof.
  exact (output_files Reference.libs Run.ready Run.final
           reference_forest_sizes reference_onnx_nonempty
           reference_json_nonempty Run.result_ok).
Defined.

(** ** The importances written to disk *)



(** * Further properties of the script *)

(** ** Which files a statement writes, and in which order *)

Lemma bind_cases {R A B} (c : M R A) (k : A → M R B) (w w' : World R) r :
  (c ≫= k) w = (r, w') →
  (∃ e, c w = (inl e, w') ∧ r = inl e)
  ∨ (∃ a w1, c w = (inr a, w1) ∧ k a w1 = (r, w')).
Proof.
  unfold mbind, M_bind. destruct (c w) as [[e|a] w1].
  - intros [= <- <-]. left. eauto.
  - intros H. right. eauto.
Qed.

(** [written ps m m']: [m'] is [m] after the paths [ps] were written, one
    after the other, with some contents. *)
Fixpoint written (ps : list string) (m m' : gmap string string) : Prop :=
  match ps with
  | [] => m' = m
  | p :: ps => ∃ content, written ps (<[p := content]> m) m'
  end.

(** Whatever its outcome, a run of [c] creates no directory and writes a
    prefix of the paths [ps], in order; all of them when it ends normally. *)
Definition writes_in_order {R A} (ps : list string) (c : M R A) : Prop :=
  ∀ w r w', c w = (r, w') →
    dirs w' = dirs w
    ∧ ∃ k, (k ≤ length ps)%nat
           ∧ match r with inr _ => k = length ps | inl _ => True end
           ∧ written (take k ps) (files w) (files w').

Lemma written_other ps m m' p :
  p ∉ ps → written ps m m' → m' !! p = m !! p.
Proof.
  revert m. induction ps as [|q ps IH]; intros m Hp; cbn.
  - intros ->. reflexivity.
  - intros [content H]. rewrite (IH _ ltac:(set_solver) H).
    apply lookup_insert_ne. set_solver.
Qed.

Lemma writes_nothing_intro {R A} (c : M R A) :
  (∀ w r w', c w = (r, w') → dirs w' = dirs w ∧ files w' = files w) →
  writes_in_order [] c.
Proof.
  intros H w r w' Hrun. destruct (H _ _ _ Hrun) as [Hd Hf].
  split; [exact Hd|]. exists 0%nat. cbn. split; [lia|].
  split; [destruct r; auto|exact Hf].
Qed.

Lemma writes_bind_pure {R A B} ps (c : M R A) (k : A → M R B) :
  writes_in_order [] c → (∀ a, writes_in_order ps (k a)) →
  writes_in_order ps (c ≫= k).
Proof.
  intros Hc Hk w r w' Hrun.
  apply bind_cases in Hrun as [(e & Hrun & ->)|(a & w1 & Hrun & Hrest)].
  - destruct (Hc _ _ _ Hrun) as (Hd & n & Hn & _ & Hw).
    replace n with 0%nat in Hw by (cbn in Hn; lia). cbn in Hw.
    split; [exact Hd|]. exists 0%nat. rewrite take_0. cbn.
    split; [lia|]. split; [exact I|exact Hw].
  - destruct (Hc _ _ _ Hrun) as (Hd & n & Hn & _ & Hw).
    replace n with 0%nat in Hw by (cbn in Hn; lia). cbn in Hw.
    destruct (Hk a _ _ _ Hrest) as (Hd' & n' & Hn' & Hr & Hw').
    split; [congruence|]. exists n'. rewrite <- Hw. auto.
Qed.

Lemma writes_bind_write {R B} p content ps (k : () → M R B) :
  (∀ a, writes_in_order ps (k a)) →
  writes_in_order (p :: ps) (write_file p content ≫= k).
Proof.
  intros Hk w r w' Hrun.
  apply bind_cases in Hrun as [(e & Hrun & ->)|(a & w1 & Hrun & Hrest)].
  - assert (w' = w) as ->.
    { unfold write_file in Hrun.
      repeat destruct (decide _); congruence. }
    split; [reflexivity|]. exists 0%nat. cbn. split; [lia|]. auto.
  - apply write_file_inr in Hrun as (Hf & Hd & _).
    destruct (Hk a _ _ _ Hrest) as (Hd' & n' & Hn' & Hr & Hw').
    split; [congruence|]. exists (S n'). cbn [length take written].
    split; [lia|]. split; [destruct r; [exact I|congruence]|].
    exists content. rewrite <- Hf. exact Hw'.
Qed.

Lemma writes_print {R} s : writes_in_order [] (print s : M R ()).
Proof.
  apply writes_nothing_intro. unfold print. intros w r w' [= <- <-]. auto.
Qed.

Lemma writes_lib {R A} (x : exn + A) : writes_in_order [] (lib x : M R A).
Proof.
  apply writes_nothing_intro. unfold lib. intros w r w' [= <- <-]. auto.
Qed.

Lemma writes_getitem {R A} (a : list A) i : writes_in_order [] (getitem a i : M R A).
Proof.
  apply writes_nothing_intro. unfold getitem.
  destruct (a !! i); unfold mret, M_ret, raise; intros w r w' [= <- <-]; auto.
Qed.

Lemma writes_generate_synthetic_data L n :
  writes_in_order [] (generate_synthetic_data L n).
Proof.
  apply writes_nothing_intro. intros w r w' H.
  apply generate_synthetic_data_frame in H as (Hf & Hd & _). auto.
Qed.

Lemma writes_importance_loop L fi items d :
  writes_in_order [] (importance_loop L fi items d).
Proof.
  revert d. induction items as [|[i feature] rest IH]; intros d; cbn [importance_loop].
  - apply writes_nothing_intro. unfold mret, M_ret. intros w r w' [= <- <-]. auto.
  - apply writes_bind_pure; [apply writes_getitem|intros x].
    apply writes_bind_pure; [apply writes_print|intros _]. apply IH.
Qed.

(** The pipeline writes the importance file, then the model, then the
    trees. *)
Lemma writes_train_and_export_model L :
  writes_in_order [importance_path; output_path; trees_path]
    (train_and_export_model L).
Proof.
  unfold train_and_export_model.
  apply writes_bind_pure; [apply writes_print|intros _].
  apply writes_bind_pure; [apply writes_generate_synthetic_data|intros [X y]].
  apply writes_bind_pure;
    [apply writes_lib|intros [[[X_train X_test] y_train] y_test]].
  do 3 (apply writes_bind_pure; [apply writes_print|intros _]).
  do 3 (apply writes_bind_pure; [apply writes_lib|intros ?]).
  do 2 (apply writes_bind_pure; [apply writes_print|intros _]).
  apply writes_bind_pure; [apply writes_lib|intros report].
  do 2 (apply writes_bind_pure; [apply writes_print|intros _]).
  apply writes_bind_pure; [apply writes_importance_loop|intros d].
  apply writes_bind_write; intros _.
  apply writes_bind_pure; [apply writes_print|intros _].
  apply writes_bind_pure; [apply writes_lib|intros onnx].
  apply writes_bind_write; intros _.
  do 2 (apply writes_bind_pure; [apply writes_print|intros _]).
  apply writes_bind_write; intros _.
  apply writes_print.
Qed.

(** X1: whatever the outcome of [train_and_export_model] (normal end or
    exception), it creates no directory, and a file that is not one of the
    three outputs is neither created, nor changed, nor removed. *)
Theorem pipeline_touches_only_outputs L (w w' : world L) r p :
  train_and_export_model L w = (r, w') →
  p ∉ [importance_path; output_path; trees_path] →
  files w' !! p = files w !! p ∧ dirs w' = dirs w.
Proof.
  intros Hrun Hp.
  destruct (writes_train_and_export_model L _ _ _ Hrun) as (Hd & k & _ & _ & Hw).
  split; [|exact Hd].
  apply (written_other _ _ _ p) in Hw; [exact Hw|].
  intros Hin. apply Hp. eapply subseteq_take, Hin.
Qed.

Lemma pipeline_touches_only_outputs_witness :
  files Run.final !! "notes.txt" = files Run.ready !! "notes.txt"
  ∧ dirs Run.final = dirs Run.ready.
Proof.
  apply (pipeline_touches_only_outputs Reference.libs Run.ready Run.final
           (inr ()) "notes.txt" Run.result_ok).
  unfold importance_path, output_path, trees_path.
  intros Hin. repeat (apply elem_of_cons in Hin as [Hin|Hin]; [discriminate|]).
  apply elem_of_nil in Hin as [].
Defined.

(** X2: the outputs are written in the order importance file, model,
    trees file, and a run that fails leaves the files written so far: after
    any run the file system is the initial one with none, the first, the
    first two or all three of them written; all three when the run ends
    normally. *)
Theorem outputs_written_in_order L (w w' : world L) r :
  train_and_export_model L w = (r, w') →
  (files w' = files w
   ∨ (∃ c1, files w' = <[importance_path := c1]> (files w))
   ∨ (∃ c1 c2, files w' = <[output_path := c2]> (<[importance_path := c1]> (files w)))
   ∨ (∃ c1 c2 c3,
        files w' = <[trees_path := c3]> (<[output_path := c2]>
                     (<[importance_path := c1]> (files w)))))
  ∧ (r = inr () →
     ∃ c1 c2 c3,
       files w' = <[trees_path := c3]> (<[output_path := c2]>
                    (<[importance_path := c1]> (files w)))).
Proof.
  intros Hrun.
  destruct (writes_train_and_export_model L _ _ _ Hrun) as (_ & k & Hk & Hr & Hw).
  assert (H3 : k = 3%nat →
               ∃ c1 c2 c3,
                 files w' = <[trees_path := c3]> (<[output_path := c2]>
                              (<[importance_path := c1]> (files w)))).
  { intros ->. cbn in Hw. destruct Hw as (c1 & c2 & c3 & Hw). eauto. }
  split.
  - destruct k as [|[|[|[|k]]]]; cbn in Hk; try lia.
    + left. exact Hw.
    + right. left. cbn in Hw. destruct Hw as (c1 & Hw). eauto.
    + right. right. left. cbn in Hw. destruct Hw as (c1 & c2 & Hw). eauto.
    + right. right. right. apply H3. reflexivity.
  - intros ->. apply H3. exact Hr.
Qed.

Lemma outputs_written_in_order_witness :
  (files Run.final = files Run.ready
   ∨ (∃ c1, files Run.final = <[importance_path := c1]> (files Run.ready))
   ∨ (∃ c1 c2, files Run.final
               = <[output_path := c2]> (<[importance_path := c1]> (files Run.ready)))
   ∨ (∃ c1 c2 c3,
        files Run.final = <[trees_path := c3]> (<[output_path := c2]>
                            (<[importance_path := c1]> (files Run.ready)))))
  ∧ (@inr exn () () = inr () →
     ∃ c1 c2 c3,
       files Run.final = <[trees_path := c3]> (<[output_path := c2]>
                           (<[importance_path := c1]> (files Run.ready)))).
Proof.
  exact (outputs_written_in_order Reference.libs Run.ready Run.final (inr ())
           Run.result_ok).
Defined.

(** ** The script around the pipeline *)

Definition hint : list string :=
  [nl +:+ "To run this script, you need the following packages:";
   "pip install numpy pandas scikit-learn skl2onnx"].

(** X3: when the set-up of lines 8-20 succeeds and the pipeline raises an
    exception that derives from [Exception], the script still ends with
    exit status 0 and no traceback: of the failure there is only the line
    [Error: <message>] and the install hint on the console, the same for
    every class of exception; directories and files are left as they were
    when the exception was raised. *)
Theorem caught_failure_exits_normally L (w w0 w1 : world L) e :
  module_level L w = (inr (), w0) →
  train_and_export_model L (printed banner w0) = (inl e, w1) →
  exn_is_Exception e = true →
  ∃ w2, run_script L w = {| final := w2; exit_code := 0; uncaught := None |}
        ∧ files w2 = files w1 ∧ dirs w2 = dirs w1
        ∧ stdout w2 = stdout w1 ++ ("Error: " +:+ exn_msg e) :: hint.
Proof.
  intros Hmod Hrun Hexc.
  destruct (main_catches L w0 w1 e Hrun Hexc) as (w2 & Hmain & Hf & Hd & Hout).
  exists w2. unfold run_script, script.
  rewrite (bind_inr_eq _ _ w w0 () Hmod), Hmain. auto.
Qed.

(** X4: an exception of the pipeline that does not derive from [Exception]
    (such as [KeyboardInterrupt] or [SystemExit]) is not caught by the
    handler of line 160: the script ends with that exception uncaught, in
    the state in which the pipeline stopped, so with neither an [Error:]
    line nor the hint printed, and the interpreter ends as that exception
    makes it: killed by SIGINT (status 130 for a shell) for a
    [KeyboardInterrupt], with the code of a [SystemExit] (0 for none, the
    low eight bits of an integer, 1 for another object), with status 1
    otherwise. *)
Theorem base_exception_escapes_handler L (w w0 w1 : world L) e :
  module_level L w = (inr (), w0) →
  train_and_export_model L (printed banner w0) = (inl e, w1) →
  exn_is_Exception e = false →
  run_script L w = {| final := w1; exit_code := exit_status e; uncaught := Some e |}
  ∧ (exn_special e = IsKeyboardInterrupt → exit_status e = 130)
  ∧ (exn_special e = IsSystemExit ExitNone → exit_status e = 0)
  ∧ (∀ n, exn_special e = IsSystemExit (ExitInt n) →
          (- 2 ^ 63 ≤ n < 2 ^ 63 → exit_status e = n mod 256)
          ∧ (¬ (- 2 ^ 63 ≤ n < 2 ^ 63) → exit_status e = 255))
  ∧ (exn_special e = IsSystemExit ExitOther → exit_status e = 1)
  ∧ (exn_special e = NotSpecial → exit_status e = 1).
Proof.
  intros Hmod Hrun Hexc. split.
  - unfold run_script, script.
    rewrite (bind_inr_eq _ _ w w0 () Hmod), (main_lets_through L w0 w1 e Hrun Hexc).
    reflexivity.
  - unfold exit_status.
    split; [intros ->; reflexivity|]. split; [intros ->; reflexivity|].
    split; [|split; intros ->; reflexivity].
    intros n ->. destruct (decide _) as [Hn|Hn]; split; intros Hn'; done.
Qed.

Module Failing.

(** The reference libraries with a [fit] that always raises [e]. *)
Definition libs (e : exn) : Libs := with_rf_fit Reference.libs (λ _ _ _, inl e).

Definition value_error : exn := ValueError "Unknown label type".
Definition interrupt : exn :=
  Exn "KeyboardInterrupt" false EmptyString IsKeyboardInterrupt.
Definition exit_3 : exn :=
  Exn "SystemExit" false "3" (IsSystemExit (ExitInt 3)).

Definition set_up (e : exn) : world (libs e) := (module_level (libs e) Reference.fresh).2.

Lemma set_up_ok e : module_level (libs e) Reference.fresh = (inr (), set_up e).
Proof. vm_compute. reflexivity. Qed.

Definition stopped (e : exn) : world (libs e) :=
  (train_and_export_model (libs e) (printed banner (set_up e))).2.

Lemma stopped_value_error :
  train_and_export_model (libs value_error) (printed banner (set_up value_error))
  = (inl value_error, stopped value_error).
Proof. vm_compute. reflexivity. Qed.

Lemma stopped_interrupt :
  train_and_export_model (libs interrupt) (printed banner (set_up interrupt))
  = (inl interrupt, stopped interrupt).
Proof. vm_compute. reflexivity. Qed.

Lemma stopped_exit_3 :
  train_and_export_model (libs exit_3) (printed banner (set_up exit_3))
  = (inl exit_3, stopped exit_3).
Proof. vm_compute. reflexivity. Qed.

End Failing.

Lemma caught_failure_exits_normally_witness :
  ∃ w2, run_script (Failing.libs Failing.value_error) Reference.fresh
        = {| final := w2; exit_code := 0; uncaught := None |}
        ∧ files w2 = files (Failing.stopped Failing.value_error)
        ∧ dirs w2 = dirs (Failing.stopped Failing.value_error)
        ∧ stdout w2 = stdout (Failing.stopped Failing.value_error)
                      ++ ("Error: " +:+ exn_msg Failing.value_error) :: hint.
Proof.
  exact (caught_failure_exits_normally (Failing.libs Failing.value_error)
           Reference.fresh (Failing.set_up Failing.value_error)
           (Failing.stopped Failing.value_error) Failing.value_error
           (Failing.set_up_ok Failing.value_error) Failing.stopped_value_error
           eq_refl).
Defined.

Lemma base_exception_escapes_handler_witness :
  run_script (Failing.libs Failing.interrupt) Reference.fresh
  = {| final := Failing.stopped Failing.interrupt; exit_code := 130;
       uncaught := Some Failing.interrupt |}
  ∧ run_script (Failing.libs Failing.exit_3) Reference.fresh
    = {| final := Failing.stopped Failing.exit_3; exit_code := 3;
         uncaught := Some Failing.exit_3 |}.
Proof.
  split.
  - exact (proj1 (base_exception_escapes_handler (Failing.libs Failing.interrupt)
                    Reference.fresh (Failing.set_up Failing.interrupt)
                    (Failing.stopped Failing.interrupt) Failing.interrupt
                    (Failing.set_up_ok Failing.interrupt) Failing.stopped_interrupt
                    eq_refl)).
  - exact (proj1 (base_exception_escapes_handler (Failing.libs Failing.exit_3)
                    Reference.fresh (Failing.set_up Failing.exit_3)
                    (Failing.stopped Failing.exit_3) Failing.exit_3
                    (Failing.set_up_ok Failing.exit_3) Failing.stopped_exit_3
                    eq_refl)).
Defined.

(** What [os.makedirs(d, exist_ok=True)] does. *)
Lemma os_makedirs_inr {R} d (w w' : World R) u :
  os_makedirs d w = (inr u, w') →
  dirs w' = {[d]} ∪ dirs w ∧ files w' = files w ∧ stdout w' = stdout w
  ∧ rng w' = rng w ∧ site_packages w' = site_packages w ∧ denied w' = denied w
  ∧ (d ∈ dirs w → w' = w).
Proof.
  unfold os_makedirs. destruct (decide (d ∈ dirs w)) as [Hd|Hd].
  - intros [= _ <-]. repeat split; try reflexivity. set_solver.
  - repeat (destruct (decide _); [discriminate|]).
    intros [= _ <-]. cbn. repeat split; try reflexivity. done.
Qed.

Lemma import_all_inr L pkgs (w w' : world L) u :
  import_all L pkgs w = (inr u, w') →
  w' = w ∧ ∀ p, p ∈ pkgs → p ∈ site_packages w.
Proof.
  revert u. induction pkgs as [|q pkgs IH]; intros u; cbn [import_all].
  - unfold mret, M_ret. intros [= _ <-]. split; [reflexivity|].
    intros p Hp. apply elem_of_nil in Hp as [].
  - intros H. apply bind_inr in H as ([] & w1 & Hq & H).
    unfold py_import in Hq. destruct (decide _) as [Hin|]; [|discriminate].
    injection Hq as <-. apply IH in H as [-> Hall]. split; [reflexivity|].
    intros p Hp. apply elem_of_cons in Hp as [->|Hp]; auto.
Qed.

(** X5: when the set-up of lines 8-20 succeeds, the four packages are
    installed, both output directories exist afterwards, no directory was
    removed, and files and console are untouched; where both directories
    existed already, nothing changed at all. *)
Theorem module_level_creates_directories L (w w' : world L) :
  module_level L w = (inr (), w') →
  {["numpy"; "pandas"; "sklearn"; "skl2onnx"]} ⊆ site_packages w
  ∧ dirs w' = {["onnx"; "model_data"]} ∪ dirs w
  ∧ files w' = files w ∧ stdout w' = stdout w
  ∧ ("onnx" ∈ dirs w → "model_data" ∈ dirs w → w' = w).
Proof.
  unfold module_level. intros H.
  apply bind_inr in H as ([] & w1 & Himp & H).
  apply import_all_inr in Himp as [-> Hall].
  apply bind_inr in H as ([] & w2 & H1 & H2).
  apply os_makedirs_inr in H1 as (Hd1 & Hf1 & Ho1 & _ & _ & _ & Hsame1).
  apply os_makedirs_inr in H2 as (Hd2 & Hf2 & Ho2 & _ & _ & _ & Hsame2).
  split; [|split; [|split; [|split]]].
  - unfold third_party_imports in Hall.
    intros p Hp. apply Hall. set_solver.
  - rewrite Hd2, Hd1. set_solver.
  - congruence.
  - congruence.
  - intros Ho Hm. rewrite Hsame2; [apply Hsame1, Ho|].
    rewrite Hd1. set_solver.
Qed.

Lemma module_level_creates_directories_witness :
  {["numpy"; "pandas"; "sklearn"; "skl2onnx"]} ⊆ site_packages Reference.fresh
  ∧ dirs (Failing.set_up Failing.value_error)
    = {["onnx"; "model_data"]} ∪ dirs Reference.fresh
  ∧ files (Failing.set_up Failing.value_error) = files Reference.fresh
  ∧ stdout (Failing.set_up Failing.value_error) = stdout Reference.fresh
  ∧ ("onnx" ∈ dirs Reference.fresh → "model_data" ∈ dirs Reference.fresh →
     Failing.set_up Failing.value_error = Reference.fresh).
Proof.
  exact (module_level_creates_directories (Failing.libs Failing.value_error)
           Reference.fresh (Failing.set_up Failing.value_error)
           (Failing.set_up_ok Failing.value_error)).
Defined.

(** X6: the directories are created at lines 19-20, outside the [try]: when
    the packages are installed and something that is not a directory is
    already named [onnx], or the directory may not be created, the script
    ends at line 19 with an uncaught [FileExistsError] (resp.
    [PermissionError]) and exit status 1, having printed nothing and
    changed nothing. *)
Theorem directory_failure_escapes_handler L (w : world L) :
  (∀ p, p ∈ third_party_imports → p ∈ site_packages w) →
  "onnx" ∉ dirs w →
  (is_Some (files w !! "onnx") →
   run_script L w = {| final := w; exit_code := 1;
                       uncaught := Some (FileExistsError "onnx") |})
  ∧ (files w !! "onnx" = None → "onnx" ∈ denied w →
     run_script L w = {| final := w; exit_code := 1;
                         uncaught := Some (PermissionError "onnx") |}).
Proof.
  intros Hall Hdir.
  pose proof (import_all_present L _ w Hall) as Himp.
  split.
  - intros Hfile. unfold run_script, script, module_level.
    rewrite (bind_inl_eq _ _ w w (FileExistsError "onnx")); [reflexivity|].
    rewrite (bind_inr_eq _ _ w w () Himp).
    apply bind_inl_eq. unfold os_makedirs.
    destruct (decide _); [done|]. destruct (decide _); [reflexivity|done].
  - intros Hfile Hden. unfold run_script, script, module_level.
    rewrite (bind_inl_eq _ _ w w (PermissionError "onnx")); [reflexivity|].
    rewrite (bind_inr_eq _ _ w w () Himp).
    apply bind_inl_eq. unfold os_makedirs. rewrite Hfile.
    destruct (decide _); [done|].
    destruct (decide _) as [[? [=]]|_]. destruct (decide _); [reflexivity|done].
Qed.

Module Occupied.

(** A working directory in which a regular file is named [onnx]. *)
Definition cwd : world Reference.libs :=
  {| rng := 0; site_packages := {["numpy"; "pandas"; "sklearn"; "skl2onnx"]};
     dirs := ∅; files := {["onnx" := "not a directory"]}; denied := ∅;
     stdout := [] |}.

End Occupied.

Lemma directory_failure_escapes_handler_witness :
  run_script Reference.libs Occupied.cwd
  = {| final := Occupied.cwd; exit_code := 1;
       uncaught := Some (FileExistsError "onnx") |}.
Proof.
  apply (proj1 (directory_failure_escapes_handler Reference.libs Occupied.cwd
                  ltac:(unfold third_party_imports; cbn; set_solver)
                  ltac:(cbn; set_solver))).
  cbn. rewrite lookup_singleton_eq. eauto.
Defined.

(** ** More on the label rule *)

(** X7: rounding never changes a label.  The label that line 65 computes in
    binary64 for a row is the one exact decimal arithmetic gives: 1 when the
    weights of the row's true indicators add up to more than 4/10, and 0
    otherwise. *)
Theorem labels_agree_with_decimal_rule df i s :
  row df i = Some s →
  labels df !! i
  = Some (if Qle_bool (decimal_score (indicators s)) (4 # 10) then 0 else 1).
Proof.
  intros Hrow. rewrite (labels_lookup _ _ _ Hrow), label_of_decimal. reflexivity.
Qed.

Lemma labels_agree_with_decimal_rule_witness :
  labels Demo.df !! 2%nat
  = Some (if Qle_bool (decimal_score (indicators Demo.row2)) (4 # 10) then 0 else 1).
Proof.
  exact (labels_agree_with_decimal_rule Demo.df 2 Demo.row2 eq_refl).
Defined.

(** One pattern of indicators is below another when each of its true
    indicators is true in the other. *)
Definition indicators_le (c1 c2 : Indicators) : Prop :=
  (i_timeSpent c1 → i_timeSpent c2)
  ∧ (i_scrollCount c1 → i_scrollCount c2)
  ∧ (i_scrollDepth c1 → i_scrollDepth c2)
  ∧ (i_clickCount c1 → i_clickCount c2)
  ∧ (i_tabSwitches c1 → i_tabSwitches c2)
  ∧ (i_videoWatchTime c1 → i_videoWatchTime c2).

Lemma weight_le (b1 b2 : bool) (q : Q) :
  (0 <= q)%Q → (b1 → b2) →
  ((if b1 then q else 0) <= (if b2 then q else 0))%Q.
Proof.
  intros Hq Hb. destruct b1, b2; try apply Qle_refl; try exact Hq.
  exfalso. apply (Hb I).
Qed.

Lemma decimal_score_monotone c1 c2 :
  indicators_le c1 c2 → (decimal_score c1 <= decimal_score c2)%Q.
Proof.
  intros (H1 & H2 & H3 & H4 & H5 & H6). unfold decimal_score.
  repeat apply Qplus_le_compat; apply weight_le; try assumption; discriminate.
Qed.

Lemma label_of_monotone c1 c2 :
  indicators_le c1 c2 → label_of c1 <= label_of c2.
Proof.
  intros Hle. apply decimal_score_monotone in Hle.
  rewrite !label_of_decimal.
  destruct (Qle_bool (decimal_score c2) (4 # 10)) eqn:E2.
  - apply Qle_bool_iff in E2.
    replace (Qle_bool (decimal_score c1) (4 # 10)) with true; [cbv iota; lia|].
    symmetry. apply Qle_bool_iff. eapply Qle_trans; eassumption.
  - destruct (Qle_bool (decimal_score c1) _); cbv iota; lia.
Qed.

(** X8: the label is monotone in the indicators, also with the roundings of
    binary64: when every indicator that holds for one row holds for another
    (of the same or of another frame), the label of the first is at most the
    label of the second; a further distraction signal never turns
    Distracted into Focused. *)
Theorem labels_monotone df1 df2 i j s1 s2 :
  row df1 i = Some s1 → row df2 j = Some s2 →
  indicators_le (indicators s1) (indicators s2) →
  ∃ l1 l2, labels df1 !! i = Some l1 ∧ labels df2 !! j = Some l2 ∧ l1 <= l2.
Proof.
  intros H1 H2 Hle. eexists _, _.
  split; [apply labels_lookup, H1|]. split; [apply labels_lookup, H2|].
  apply label_of_monotone, Hle.
Qed.

Lemma labels_monotone_witness :
  ∃ l1 l2, labels Demo.df !! 0%nat = Some l1 ∧ labels Demo.df !! 2%nat = Some l2
           ∧ l1 <= l2.
Proof.
  apply (labels_monotone Demo.df Demo.df 0 2 Demo.row0 Demo.row2 eq_refl eq_refl).
  vm_compute. repeat split; auto.
Defined.

Lemma count_eq_astype_int (bs : list bool) :
  (count_eq (series_astype_int bs) 0 + count_eq (series_astype_int bs) 1
   = length bs)%nat.
Proof.
  unfold count_eq, series_astype_int.
  induction bs as [|[] bs IH]; cbn [fmap list_fmap]; [reflexivity| |].
  - rewrite (filter_cons_False (λ x, x = 0)) by discriminate.
    rewrite (filter_cons_True (λ x, x = 1)) by reflexivity.
    cbn [length]. lia.
  - rewrite (filter_cons_True (λ x, x = 0)) by reflexivity.
    rewrite (filter_cons_False (λ x, x = 1)) by discriminate.
    cbn [length]. lia.
Qed.

(** X9: the two numbers of the line [Class distribution: Focused=...,
    Distracted=...] (line 80) add up to the number of samples: every
    generated sample is counted in exactly one of the two classes. *)
Theorem class_counts_add_up L n (w w' : world L) df y :
  np_sizes L →
  generate_synthetic_data L n w = (inr (df, y), w') →
  (count_eq y 0 + count_eq y 1)%nat = default 1000%nat n
  ∧ (count_eq y 0 + count_eq y 1)%nat = nrows df.
Proof.
  intros HL H.
  destruct (generate_synthetic_data_nrows _ _ _ _ _ _ HL H) as [Hn Hy].
  apply generate_synthetic_data_inv in H as (-> & Hlen & _).
  assert (Hsum : (count_eq (labels df) 0 + count_eq (labels df) 1
                  = length (labels df))%nat).
  { unfold labels at 1 2. rewrite count_eq_astype_int.
    unfold labels, series_astype_int. rewrite length_fmap. reflexivity. }
  rewrite Hsum, Hy, Hn. auto.
Qed.

Lemma class_counts_add_up_witness :
  (count_eq Demo.y 0 + count_eq Demo.y 1)%nat = 8%nat
  ∧ (count_eq Demo.y 0 + count_eq Demo.y 1)%nat = nrows Demo.df.
Proof.
  exact (class_counts_add_up Reference.libs (Some 8%nat) Reference.fresh
           Demo.out.2 Demo.df Demo.y reference_np_sizes Demo.out_eq).
Defined.

(** ** The loop over the importances *)

Lemma importance_loop_step L fi i feature rest d (w : world L) x :
  fi !! i = Some x →
  importance_loop L fi ((i, feature) :: rest) d w
  = importance_loop L fi rest (dict_set feature x d)
      (printed [feature +:+ ": " +:+ format_4f L x] w).
Proof.
  intros H. cbn [importance_loop]. unfold getitem. rewrite H.
  rewrite (bind_inr_eq _ _ w w x) by reflexivity.
  rewrite (bind_inr_eq _ _ w (printed [feature +:+ ": " +:+ format_4f L x] w) ())
    by reflexivity.
  reflexivity.
Qed.

Lemma importance_loop_stop L fi i feature rest d (w : world L) :
  fi !! i = None →
  ∃ e, importance_loop L fi ((i, feature) :: rest) d w = (inl e, w)
       ∧ exn_class e = "IndexError".
Proof.
  intros H. cbn [importance_loop]. unfold getitem. rewrite H.
  eexists. split; [apply bind_inl_eq; reflexivity|reflexivity].
Qed.

(** The console line of one feature (line 110). *)
Definition importance_line L (p : string * float) : string :=
  p.1 +:+ ": " +:+ format_4f L p.2.

(** X10: the loop of lines 107-110 pairs the six column names with the
    importances in order and prints one line per pair read.  With at least
    six importances it returns the dictionary of the six names and the first
    six values, further values being ignored; with fewer it raises
    [IndexError] after the lines of the values it could read.  It never
    touches a file. *)
Theorem importance_loop_outcome L (fi : list float) (X : DataFrame) (w : world L) :
  ∃ r w',
    importance_loop L fi (enumerate (columns X)) [] w = (r, w')
    ∧ files w' = files w
    ∧ stdout w' = stdout w ++ (importance_line L <$> zip (columns X) fi)
    ∧ ((6 ≤ length fi)%nat → r = inr (zip (columns X) fi))
    ∧ ((length fi < 6)%nat → ∃ e, r = inl e ∧ exn_class e = "IndexError").
Proof.
  unfold enumerate, columns. cbn [imap compose].
  destruct fi as [|x0 [|x1 [|x2 [|x3 [|x4 [|x5 fi]]]]]];
    repeat (rewrite importance_loop_step by reflexivity);
    try (match goal with
         | |- context [importance_loop L ?l ((?i, ?f) :: ?rest) ?d ?w0] =>
             destruct (importance_loop_stop L l i f rest d w0 eq_refl)
               as (e & -> & He)
         end);
    cbn [importance_loop];
    (eexists _, _; split; [reflexivity|]);
    cbn [files stdout printed zip zip_with fmap list_fmap length];
    rewrite <- ?app_assoc, ?app_nil_r;
    (split; [reflexivity|]); (split; [reflexivity|]);
    (split; [intros; try lia|intros; try lia; eauto]).
  reflexivity.
Qed.

(** ** What generating the data does to the world *)

(** X11: [generate_synthetic_data] prints nothing and touches no file,
    directory or package; its one side effect is on NumPy's global
    generator, which it leaves in a state that depends on the sample count
    only, not on the state it found. *)
Theorem generate_synthetic_data_side_effects L n (w1 w2 : world L) :
  rng (generate_synthetic_data L n w1).2 = rng (generate_synthetic_data L n w2).2
  ∧ files (generate_synthetic_data L n w1).2 = files w1
  ∧ dirs (generate_synthetic_data L n w1).2 = dirs w1
  ∧ stdout (generate_synthetic_data L n w1).2 = stdout w1
  ∧ site_packages (generate_synthetic_data L n w1).2 = site_packages w1.
Proof.
  unfold generate_synthetic_data. unfold_monad. cbn [rng set_rng].
  destruct (np_exponential L (F64.of_Z 300) _ _) as [c1 r1]. cbn [rng set_rng].
  destruct (np_negative_binomial L (F64.of_Z 5) _ _ _) as [c2 r2]. cbn [rng set_rng].
  destruct (np_beta L _ _ _ _) as [c3 r3]. cbn [rng set_rng].
  destruct (np_negative_binomial L (F64.of_Z 3) _ _ _) as [c4 r4]. cbn [rng set_rng].
  destruct (np_poisson L _ _ _) as [c5 r5]. cbn [rng set_rng].
  destruct (np_exponential L (F64.of_Z 120) _ _) as [c6 r6]. cbn [rng set_rng].
  unfold pd_DataFrame. destruct (same_lengths _); cbn; auto.
Qed.

(** ** The trees file in general *)

(** X12: without any assumption on the forest, the trees file of a
    successful run lists the first five trees or, for a forest of fewer
    trees, all of them: as many entries as [min 5 (number of trees)], the
    entry at position [i] having [treeIndex] equal to [i] and the six feature
    names, and nothing of the tree itself. *)
Theorem trees_file_entries L (w w' : world L) :
  train_and_export_model L w = (inr (), w') →
  ∃ X_train y_train fitted entries,
    rf_fit L model X_train y_train = inr fitted
    ∧ files w' !! trees_path = Some (json_dumps L (JList entries) 2)
    ∧ length entries = (5 `min` length (estimators_ L fitted))%nat
    ∧ ∀ i entry, entries !! i = Some entry →
        entry = JDict [("treeIndex", JInt (Z.of_nat i));
                       ("feature_names",
                        JList (JStr <$> ["timeSpent"; "scrollCount"; "scrollDepth";
                                         "clickCount"; "tabSwitches";
                                         "videoWatchTime"]))].
Proof.
  intros Hrun.
  apply train_and_export_model_success in Hrun
    as (X & y & X_train & X_test & y_train & y_test & fitted & d & onnx & w0 & w1
        & _ & _ & Hfit & _ & _ & Hfiles).
  exists X_train, y_train, fitted. eexists. split; [exact Hfit|].
  split; [rewrite Hfiles; apply lookup_insert_eq|].
  split.
  - rewrite length_imap, length_take. reflexivity.
  - intros i entry Hi. apply list_lookup_imap_Some in Hi as (t & _ & ->).
    reflexivity.
Qed.

Lemma trees_file_entries_witness :
  ∃ X_train y_train fitted entries,
    rf_fit Reference.libs model X_train y_train = inr fitted
    ∧ files Run.final !! trees_path
      = Some (json_dumps Reference.libs (JList entries) 2)
    ∧ length entries = (5 `min` length (estimators_ Reference.libs fitted))%nat
    ∧ ∀ i entry, entries !! i = Some entry →
        entry = JDict [("treeIndex", JInt (Z.of_nat i));
                       ("feature_names",
                        JList (JStr <$> ["timeSpent"; "scrollCount"; "scrollDepth";
                                         "clickCount"; "tabSwitches";
                                         "videoWatchTime"]))].
Proof.
  exact (trees_file_entries Reference.libs Run.ready Run.final Run.result_ok).
Defined.


(** * The run as a whole: sample count, split and fit *)

(** ** What a successful run went through and printed *)

Lemma write_file_stdout {R} (path content : string) (w w' : World R) u :
  write_file path content w = (inr u, w') → stdout w' = stdout w.
Proof.
  unfold write_file. repeat destruct (decide _); try discriminate.
  intros [= _ <-]. reflexivity.
Qed.

(** The loop over the six columns, when it ends normally. *)
Lemma importance_loop_columns_inr L fi X d (w w' : world L) :
  importance_loop L fi (enumerate (columns X)) [] w = (inr d, w') →
  d = zip (columns X) fi ∧ (6 ≤ length fi)%nat
  ∧ stdout w' = stdout w ++ (importance_line L <$> d).
Proof.
  unfold enumerate, columns. cbn [imap compose].
  destruct fi as [|x0 [|x1 [|x2 [|x3 [|x4 [|x5 fi]]]]]];
    repeat (erewrite importance_loop_step by reflexivity);
    try (match goal with
         | |- context [importance_loop L ?l ((?i, ?f) :: ?rest) ?d0 ?w0] =>
             destruct (importance_loop_stop L l i f rest d0 w0 eq_refl)
               as (e & -> & He)
         end; intros H; discriminate H).
  cbn [importance_loop]. unfold mret, M_ret. intros [= <- <-].
  split; [reflexivity|]. split; [cbn [length]; lia|].
  cbn [files stdout printed zip zip_with fmap list_fmap length dict_set].
  rewrite <- !app_assoc. reflexivity.
Qed.

(** The console of a run that ends normally. *)
Definition console L (X_train : DataFrame) (y : list Z) (accuracy : float)
    (report : string) (d : list (string * float)) : list string :=
  ["Generating synthetic training data...";
   "Training data shape: " +:+ shape_str X_train;
   "Class distribution: Focused=" +:+ pretty (count_eq y 0)
     +:+ ", Distracted=" +:+ pretty (count_eq y 1);
   "Training Random Forest model...";
   "Model Accuracy: " +:+ format_4f L accuracy;
   nl +:+ "Classification Report:";
   report;
   nl +:+ "Feature Importance:"]
  ++ (importance_line L <$> d)
  ++ [nl +:+ "Exporting model to ONNX format...";
      "ONNX model saved to " +:+ output_path;
      nl +:+ "Extracting decision trees for JavaScript implementation...";
      "Model training and export completed successfully!"].

(** A run that ends normally has generated the data, split them, fitted
    [model] on the training part, evaluated it on the test part, and has
    printed and written what these values give. *)
Lemma train_and_export_model_trace L (w w' : world L) :
  train_and_export_model L w = (inr (), w') →
  ∃ X y w1 X_train X_test y_train y_test fitted y_pred accuracy report d onnx,
    generate_synthetic_data L (Some 2000%nat)
      (printed ["Generating synthetic training data..."] w) = (inr (X, y), w1)
    ∧ train_test_split L X y test_size 42 = inr (X_train, X_test, y_train, y_test)
    ∧ rf_fit L model X_train y_train = inr fitted
    ∧ rf_predict L fitted X_test = inr y_pred
    ∧ accuracy_score L y_test y_pred = inr accuracy
    ∧ classification_report L y_test y_pred = inr report
    ∧ d = zip (columns X) (feature_importances_ L fitted)
    ∧ (6 ≤ length (feature_importances_ L fitted))%nat
    ∧ convert_sklearn L fitted
        [("float_input", {| tensor_shape := [None; Some 6%nat] |})] 12 = inr onnx
    ∧ stdout w' = stdout w ++ console L X_train y accuracy report d
    ∧ files w' =
        <[trees_path :=
            json_dumps L (JList (imap (tree_data (columns X))
                                      (take 5 (estimators_ L fitted)))) 2]>
          (<[output_path := SerializeToString L onnx]>
             (<[importance_path := json_dumps L (importance_json d) 2]> (files w))).
Proof.
  unfold train_and_export_model. intros H.
  apply bind_inr in H as (u0 & w0 & Hp0 & H). apply print_inr in Hp0 as Hw0.
  apply bind_inr in H as ([X y] & w1 & Hgen & H).
  apply bind_inr in H as ([[[X_train X_test] y_train] y_test] & w2 & Hsplit & H).
  apply lib_inr in Hsplit as [Hsplit ->].
  apply bind_inr in H as (u1 & w3 & Hp1 & H). apply print_inr in Hp1 as Hw3.
  apply bind_inr in H as (u2 & w4 & Hp2 & H). apply print_inr in Hp2 as Hw4.
  apply bind_inr in H as (u3 & w5 & Hp3 & H). apply print_inr in Hp3 as Hw5.
  apply bind_inr in H as (fitted & w6 & Hfit & H).
  apply lib_inr in Hfit as [Hfit ->].
  apply bind_inr in H as (y_pred & w7 & Hpred & H).
  apply lib_inr in Hpred as [Hpred ->].
  apply bind_inr in H as (accuracy & w8 & Hacc & H).
  apply lib_inr in Hacc as [Hacc ->].
  apply bind_inr in H as (u4 & w9 & Hp4 & H). apply print_inr in Hp4 as Hw9.
  apply bind_inr in H as (u5 & w10 & Hp5 & H). apply print_inr in Hp5 as Hw10.
  apply bind_inr in H as (report & w11 & Hrep & H).
  apply lib_inr in Hrep as [Hrep ->].
  apply bind_inr in H as (u6 & w12 & Hp6 & H). apply print_inr in Hp6 as Hw12.
  apply bind_inr in H as (u7 & w13 & Hp7 & H). apply print_inr in Hp7 as Hw13.
  apply bind_inr in H as (d & w14 & Hloop & H).
  apply bind_inr in H as (u8 & w15 & Hwr1 & H).
  apply bind_inr in H as (u9 & w16 & Hp9 & H). apply print_inr in Hp9 as Hw16.
  apply bind_inr in H as (onnx & w17 & Hconv & H).
  apply lib_inr in Hconv as [Hconv ->].
  apply bind_inr in H as (u10 & w18 & Hwr2 & H).
  apply bind_inr in H as (u11 & w19 & Hp11 & H). apply print_inr in Hp11 as Hw19.
  apply bind_inr in H as (u12 & w20 & Hp12 & H). apply print_inr in Hp12 as Hw20.
  apply bind_inr in H as (u13 & w21 & Hwr3 & H).
  apply print_inr in H as Hw'.
  apply generate_synthetic_data_frame in Hgen as Hframe.
  destruct Hframe as (Hf1 & _ & _ & Ho1).
  apply importance_loop_inr in Hloop as Hl. destruct Hl as (_ & Hf14 & _).
  apply importance_loop_columns_inr in Hloop as (Hd & Hlen & Ho14).
  apply write_file_stdout in Hwr1 as Ho15. apply write_file_inr in Hwr1 as (Hf15 & _).
  apply write_file_stdout in Hwr2 as Ho18. apply write_file_inr in Hwr2 as (Hf18 & _).
  apply write_file_stdout in Hwr3 as Ho21. apply write_file_inr in Hwr3 as (Hf21 & _).
  exists X, y, w1, X_train, X_test, y_train, y_test, fitted, y_pred, accuracy,
    report, d, onnx.
  rewrite Hw0 in Hgen.
  split; [exact Hgen|]. split; [exact Hsplit|]. split; [exact Hfit|].
  split; [exact Hpred|]. split; [exact Hacc|]. split; [exact Hrep|].
  split; [exact Hd|]. split; [exact Hlen|]. split; [exact Hconv|].
  split.
  - rewrite Hw'. cbn [stdout printed]. rewrite Ho21, Hw20. cbn [stdout printed].
    rewrite Hw19. cbn [stdout printed]. rewrite Ho18, Hw16. cbn [stdout printed].
    rewrite Ho15, Ho14, Hw13. cbn [stdout printed]. rewrite Hw12.
    cbn [stdout printed]. rewrite Hw10. cbn [stdout printed]. rewrite Hw9.
    cbn [stdout printed]. rewrite Hw5. cbn [stdout printed]. rewrite Hw4.
    cbn [stdout printed]. rewrite Hw3. cbn [stdout printed]. rewrite Ho1, Hw0.
    cbn [stdout printed]. unfold console. rewrite <- !app_assoc. reflexivity.
  - rewrite Hw'. cbn [files printed]. rewrite Hf21, Hw20. cbn [files printed].
    rewrite Hw19. cbn [files printed]. rewrite Hf18, Hw16. cbn [files printed].
    rewrite Hf15, Hf14, Hw13. cbn [files printed]. rewrite Hw12.
    cbn [files printed]. rewrite Hw10. cbn [files printed]. rewrite Hw9.
    cbn [files printed]. rewrite Hw5. cbn [files printed]. rewrite Hw4.
    cbn [files printed]. rewrite Hw3. cbn [files printed]. rewrite Hf1, Hw0.
    reflexivity.
Qed.

(** ** What a run goes through before the fit *)

(** The lines on the console when the forest is about to be fitted. *)
Definition before_fit (X_train : DataFrame) (y : list Z) : list string :=
  ["Training data shape: " +:+ shape_str X_train;
   "Class distribution: Focused=" +:+ pretty (count_eq y 0)
     +:+ ", Distracted=" +:+ pretty (count_eq y 1);
   "Training Random Forest model..."].

Lemma print_printed {R} (s : string) (lines : list string) (w : World R) :
  print s (printed lines w) = (inr (), printed (lines ++ [s]) w).
Proof.
  unfold print, printed. cbn [rng site_packages dirs files denied stdout].
  rewrite <- app_assoc. reflexivity.
Qed.

(** A failure of the generation ends the run. *)
Lemma train_and_export_model_generation_fails L (w w1 : world L) e :
  generate_synthetic_data L (Some 2000%nat)
    (printed ["Generating synthetic training data..."] w) = (inl e, w1) →
  train_and_export_model L w = (inl e, w1).
Proof.
  intros Hgen. unfold train_and_export_model.
  rewrite (bind_inr_eq _ _ w (printed ["Generating synthetic training data..."] w) ())
    by reflexivity.
  apply bind_inl_eq. exact Hgen.
Qed.

(** The generated table and labels are handed to [train_test_split] with
    the test size 0.2 and the seed 42; its failure ends the run. *)
Lemma train_and_export_model_split_fails L (w w1 : world L) X y e :
  generate_synthetic_data L (Some 2000%nat)
    (printed ["Generating synthetic training data..."] w) = (inr (X, y), w1) →
  train_test_split L X y test_size 42 = inl e →
  train_and_export_model L w = (inl e, w1).
Proof.
  intros Hgen Hsplit. unfold train_and_export_model.
  rewrite (bind_inr_eq _ _ w (printed ["Generating synthetic training data..."] w) ())
    by reflexivity.
  rewrite (bind_inr_eq _ _ _ w1 (X, y) Hgen). cbv beta iota.
  apply bind_inl_eq. unfold lib. rewrite Hsplit. reflexivity.
Qed.

(** The training part of the split is handed to [fit] together with
    [model]; a failure of the fit ends the run. *)
Lemma train_and_export_model_fit_fails L (w w1 : world L) X y
    X_train X_test y_train y_test e :
  generate_synthetic_data L (Some 2000%nat)
    (printed ["Generating synthetic training data..."] w) = (inr (X, y), w1) →
  train_test_split L X y test_size 42 = inr (X_train, X_test, y_train, y_test) →
  rf_fit L model X_train y_train = inl e →
  train_and_export_model L w = (inl e, printed (before_fit X_train y) w1).
Proof.
  intros Hgen Hsplit Hfit. unfold train_and_export_model.
  rewrite (bind_inr_eq _ _ w (printed ["Generating synthetic training data..."] w) ())
    by reflexivity.
  rewrite (bind_inr_eq _ _ _ w1 (X, y) Hgen). cbv beta iota.
  rewrite (bind_inr_eq _ _ w1 w1 (X_train, X_test, y_train, y_test))
    by (unfold lib; rewrite Hsplit; reflexivity).
  cbv beta iota.
  rewrite (bind_inr_eq _ _ w1
             (printed ["Training data shape: " +:+ shape_str X_train] w1) ())
    by reflexivity.
  rewrite (bind_inr_eq _ _ _ _ () (print_printed _ _ w1)). cbn [app].
  rewrite (bind_inr_eq _ _ _ _ () (print_printed _ _ w1)). cbn [app].
  apply bind_inl_eq. unfold lib. rewrite Hfit. reflexivity.
Qed.

(** ** The sample count *)

Lemma count_eq_labels (df : DataFrame) :
  (count_eq (labels df) 0 + count_eq (labels df) 1 = length (labels df))%nat.
Proof.
  unfold labels at 1 2. rewrite count_eq_astype_int.
  unfold labels, series_astype_int. rewrite length_fmap. reflexivity.
Qed.

(** C3, amended: the default sample count is 1000 (line 22): with samplers
    that honour [size], a call without a sample count returns 1000 rows and
    1000 labels, and a call with a count returns that many.  The run has
    2000 samples because [train_and_export_model] passes 2000 (line 74):
    every run generates a table of 2000 rows and 2000 labels, whose two
    class counts add up to 2000, and hands them to [train_test_split] (if
    the split fails, so does the run, with the same exception); a run that
    ends normally has split this table and has printed the shape of its
    training part and its two class counts after the first line. *)
Theorem sample_count L :
  np_sizes L →
  (∀ n (w : world L),
     ∃ df y w',
       generate_synthetic_data L n w = (inr (df, y), w')
       ∧ nrows df = match n with Some k => k | None => 1000%nat end
       ∧ length y = nrows df)
  ∧ (∀ w : world L,
       ∃ X y w1,
         generate_synthetic_data L (Some 2000%nat)
           (printed ["Generating synthetic training data..."] w) = (inr (X, y), w1)
         ∧ nrows X = 2000%nat ∧ length y = 2000%nat
         ∧ (count_eq y 0 + count_eq y 1 = 2000)%nat
         ∧ (∀ e, train_test_split L X y test_size 42 = inl e →
                 train_and_export_model L w = (inl e, w1))
         ∧ (∀ w', train_and_export_model L w = (inr (), w') →
                  ∃ X_train X_test y_train y_test rest,
                    train_test_split L X y test_size 42
                    = inr (X_train, X_test, y_train, y_test)
                    ∧ stdout w' = stdout w
                        ++ "Generating synthetic training data..."
                           :: before_fit X_train y ++ rest)).
Proof.
  intros HL. split.
  - intros n w.
    destruct (generate_synthetic_data_total L n w HL) as (df & y & w' & H).
    exists df, y, w'. split; [exact H|].
    destruct (generate_synthetic_data_nrows _ _ _ _ _ _ HL H) as [H1 H2].
    rewrite H2, H1. destruct n; auto.
  - intros w.
    destruct (generate_synthetic_data_total L (Some 2000%nat)
                (printed ["Generating synthetic training data..."] w) HL)
      as (X & y & w1 & Hgen).
    exists X, y, w1.
    destruct (generate_synthetic_data_nrows _ _ _ _ _ _ HL Hgen) as [Hn Hy].
    cbn [default] in Hn, Hy.
    split; [exact Hgen|]. split; [exact Hn|]. split; [exact Hy|]. split.
    { apply generate_synthetic_data_inv in Hgen as Hinv.
      destruct Hinv as (Hlab & _). rewrite Hlab in Hy |- *.
      rewrite count_eq_labels. exact Hy. }
    split.
    { intros e He. exact (train_and_export_model_split_fails L w w1 X y e Hgen He). }
    intros w' Hrun.
    destruct (train_and_export_model_trace L w w' Hrun)
      as (X' & y' & w1' & X_train & X_test & y_train & y_test & fitted & y_pred
          & accuracy & report & d & onnx & Hgen' & Hsplit & _ & _ & _ & _ & _ & _
          & _ & Hout & _).
    rewrite Hgen in Hgen'. injection Hgen' as <- <- <-.
    eexists X_train, X_test, y_train, y_test, _. split; [exact Hsplit|].
    rewrite Hout. unfold console, before_fit. cbn [app]. reflexivity.
Qed.

Lemma sample_count_witness :
  (∃ df y w',
     generate_synthetic_data Reference.libs None Reference.fresh = (inr (df, y), w')
     ∧ nrows df = 1000%nat ∧ length y = nrows df)
  ∧ (∃ X y X_train rest,
       nrows X = 2000%nat ∧ length y = 2000%nat
       ∧ (count_eq y 0 + count_eq y 1 = 2000)%nat
       ∧ stdout Run.final = stdout Run.ready
           ++ "Generating synthetic training data..."
              :: before_fit X_train y ++ rest).
Proof.
  destruct (sample_count Reference.libs reference_np_sizes) as [Hcount Hrun].
  split; [exact (Hcount None Reference.fresh)|].
  destruct (Hrun Run.ready) as (X & y & w1 & _ & Hn & Hy & Hsum & _ & Hok).
  destruct (Hok Run.final Run.result_ok)
    as (X_train & X_test & y_train & y_test & rest & _ & Hout).
  exists X, y, X_train, rest. auto.
Defined.

(** ** The size of the test set in the run *)

Lemma shape_str_1600 (df : DataFrame) :
  nrows df = 1600%nat → shape_str df = "(1600, 6)".
Proof. unfold shape_str. intros ->. vm_compute. reflexivity. Qed.

(** C4: with scikit-learn's rule for the sizes of a split, the test set of
    a frame of [n] rows has a size within one of any integer nearest to the
    float64 product [0.2 * n], whatever [n].  In a run of
    [train_and_export_model] that ends normally, the table that was split
    (line 77) is the generated one and has 2000 rows, its test part has 400
    rows and its training part 1600; the forest was fitted on the training
    part and evaluated on the test part, and the second line of the console
    is [Training data shape: (1600, 6)]. *)
Theorem test_set_size L :
  split_sizes L →
  (∀ X y seed X_train X_test y_train y_test,
     train_test_split L X y test_size seed = inr (X_train, X_test, y_train, y_test) →
     ∀ r : Z,
       (Qabs (F64.toQ (F64.mul test_size (F64.of_Z (Z.of_nat (nrows X))))
              - inject_Z r) <= 1 # 2)%Q →
       Z.abs (Z.of_nat (nrows X_test) - r) <= 1)
  ∧ (np_sizes L →
     ∀ (w w' : world L),
       train_and_export_model L w = (inr (), w') →
       ∃ X y w1 X_train X_test y_train y_test fitted y_pred accuracy rest,
         generate_synthetic_data L (Some 2000%nat)
           (printed ["Generating synthetic training data..."] w) = (inr (X, y), w1)
         ∧ train_test_split L X y test_size 42
           = inr (X_train, X_test, y_train, y_test)
         ∧ nrows X = 2000%nat
         ∧ nrows X_test = 400%nat ∧ nrows X_train = 1600%nat
         ∧ rf_fit L model X_train y_train = inr fitted
         ∧ rf_predict L fitted X_test = inr y_pred
         ∧ accuracy_score L y_test y_pred = inr accuracy
         ∧ stdout w' = stdout w
             ++ ["Generating synthetic training data...";
                 "Training data shape: (1600, 6)"] ++ rest).
Proof.
  intros Hsplit. split.
  - intros X y seed X_train X_test y_train y_test H r Hr.
    destruct (Hsplit _ _ _ _ _ _ _ _ H) as (k & Hk & Htest & _).
    pose proof (ceil_near_round _ _ Hr) as Hnear.
    pose proof (toQ_test_size_mul_nonneg (nrows X)) as Hpos.
    apply Qceiling_resp_le in Hpos. change (Qceiling 0) with 0 in Hpos.
    remember (F64.mul test_size (F64.of_Z (Z.of_nat (nrows X)))) as x.
    unfold F64.ceil in Hk. destruct (F64.is_finite x); [|discriminate].
    injection Hk as <-. rewrite Htest. lia.
  - intros Hnp w w' Hrun.
    destruct (train_and_export_model_trace L w w' Hrun)
      as (X & y & w1 & X_train & X_test & y_train & y_test & fitted & y_pred
          & accuracy & report & d & onnx & Hgen & H & Hfit & Hpred & Hacc & _ & _
          & _ & _ & Hout & _).
    destruct (generate_synthetic_data_nrows _ _ _ _ _ _ Hnp Hgen) as [Hn _].
    cbn [default] in Hn.
    destruct (Hsplit _ _ _ _ _ _ _ _ H) as (k & Hk & Htest & Htrain).
    rewrite Hn in Hk, Htrain. vm_compute in Hk. injection Hk as <-.
    assert (Htrain' : nrows X_train = 1600%nat)
      by (rewrite Htrain, Htest; reflexivity).
    eexists X, y, w1, X_train, X_test, y_train, y_test, fitted, y_pred, accuracy, _.
    split; [exact Hgen|]. split; [exact H|]. split; [exact Hn|].
    split; [rewrite Htest; reflexivity|]. split; [exact Htrain'|].
    split; [exact Hfit|]. split; [exact Hpred|]. split; [exact Hacc|].
    rewrite Hout. unfold console. rewrite (shape_str_1600 _ Htrain').
    cbn [app]. reflexivity.
Qed.

Lemma test_set_size_witness :
  Z.abs (Z.of_nat (nrows Run.X_test) - 400) <= 1
  ∧ (∃ X y w1 X_train X_test y_train y_test fitted y_pred accuracy rest,
       generate_synthetic_data Reference.libs (Some 2000%nat)
         (printed ["Generating synthetic training data..."] Run.ready)
       = (inr (X, y), w1)
       ∧ train_test_split Reference.libs X y test_size 42
         = inr (X_train, X_test, y_train, y_test)
       ∧ nrows X = 2000%nat
       ∧ nrows X_test = 400%nat ∧ nrows X_train = 1600%nat
       ∧ rf_fit Reference.libs model X_train y_train = inr fitted
       ∧ rf_predict Reference.libs fitted X_test = inr y_pred
       ∧ accuracy_score Reference.libs y_test y_pred = inr accuracy
       ∧ stdout Run.final = stdout Run.ready
           ++ ["Generating synthetic training data...";
               "Training data shape: (1600, 6)"] ++ rest).
Proof.
  split.
  - exact (proj1 (test_set_size Reference.libs reference_split_sizes)
             Run.X Run.y 42 Run.X_train Run.X_test (take 1600 Run.y)
             (drop 1600 Run.y) Run.parts_ok 400 Run.nearest_400).
  - exact (proj2 (test_set_size Reference.libs reference_split_sizes)
             reference_np_sizes Run.ready Run.final Run.result_ok).
Defined.

(** ** The hyperparameters of the fit *)

(** C6: the forest is fitted with 100 trees, maximal depth 10, at least 5
    samples to split and random state 42.  These are constants:
    [train_and_export_model] has no parameter, and replacing [fit] by any
    function that agrees with it on these four hyperparameters (and may
    differ on all others) changes nothing in any run.  The fit does take
    place with them: in a run that ends normally, [fit] was called with
    these four values on the training part of the split of the generated
    data, and the forest it returned is the one that was evaluated on the
    test part and whose accuracy, report and importances are on the console,
    whose importances, ONNX conversion and first five trees are in the three
    files; and whenever the data are generated and split, a failure of
    [fit] with these four values on the training part ends the run with
    that exception, right after the line
    [Training Random Forest model...]. *)
Theorem hyperparameters_fixed L
    (fit : RandomForestClassifier → DataFrame → list Z → exn + fitted_forest L) :
  (∀ X y,
     fit {| n_estimators := 100; max_depth := 10; min_samples_split := 5;
            random_state := 42 |} X y
     = rf_fit L {| n_estimators := 100; max_depth := 10; min_samples_split := 5;
                   random_state := 42 |} X y) →
  model = {| n_estimators := 100; max_depth := 10; min_samples_split := 5;
             random_state := 42 |}
  ∧ (∀ w : world L,
       train_and_export_model (with_rf_fit L fit) w = train_and_export_model L w)
  ∧ (∀ w w' : world L,
       train_and_export_model L w = (inr (), w') →
       ∃ X y w1 X_train X_test y_train y_test fitted y_pred accuracy report onnx,
         generate_synthetic_data L (Some 2000%nat)
           (printed ["Generating synthetic training data..."] w) = (inr (X, y), w1)
         ∧ train_test_split L X y test_size 42
           = inr (X_train, X_test, y_train, y_test)
         ∧ rf_fit L {| n_estimators := 100; max_depth := 10;
                       min_samples_split := 5; random_state := 42 |}
             X_train y_train = inr fitted
         ∧ rf_predict L fitted X_test = inr y_pred
         ∧ accuracy_score L y_test y_pred = inr accuracy
         ∧ classification_report L y_test y_pred = inr report
         ∧ convert_sklearn L fitted
             [("float_input", {| tensor_shape := [None; Some 6%nat] |})] 12
           = inr onnx
         ∧ stdout w' = stdout w
             ++ console L X_train y accuracy report
                  (zip (columns X) (feature_importances_ L fitted))
         ∧ files w' =
             <[trees_path :=
                 json_dumps L (JList (imap (tree_data (columns X))
                                           (take 5 (estimators_ L fitted)))) 2]>
               (<[output_path := SerializeToString L onnx]>
                  (<[importance_path :=
                       json_dumps L
                         (importance_json
                            (zip (columns X) (feature_importances_ L fitted))) 2]>
                     (files w))))
  ∧ (∀ (w w1 : world L) X y X_train X_test y_train y_test e,
       generate_synthetic_data L (Some 2000%nat)
         (printed ["Generating synthetic training data..."] w) = (inr (X, y), w1) →
       train_test_split L X y test_size 42
       = inr (X_train, X_test, y_train, y_test) →
       rf_fit L {| n_estimators := 100; max_depth := 10;
                   min_samples_split := 5; random_state := 42 |}
         X_train y_train = inl e →
       train_and_export_model L w = (inl e, printed (before_fit X_train y) w1)).
Proof.
  intros Hfit. split; [reflexivity|]. split; [|split].
  - intros w. unfold train_and_export_model.
    apply bind_congr; [reflexivity|intros [] w0].
    apply bind_congr; [reflexivity|intros [X y] w1].
    apply bind_congr;
      [reflexivity|intros [[[X_train X_test] y_train] y_test] w2].
    do 3 (apply bind_congr; [reflexivity|intros [] ?]).
    apply bind_congr; [|intros fitted w6; reflexivity].
    unfold lib. cbn [rf_fit with_rf_fit]. unfold model. rewrite Hfit. reflexivity.
  - intros w w' Hrun.
    destruct (train_and_export_model_trace L w w' Hrun)
      as (X & y & w1 & X_train & X_test & y_train & y_test & fitted & y_pred
          & accuracy & report & d & onnx & Hgen & Hsplit & Hfitted & Hpred & Hacc
          & Hrep & Hd & _ & Honnx & Hout & Hfiles).
    subst d.
    exists X, y, w1, X_train, X_test, y_train, y_test, fitted, y_pred, accuracy,
      report, onnx.
    split; [exact Hgen|]. split; [exact Hsplit|]. split; [exact Hfitted|].
    split; [exact Hpred|]. split; [exact Hacc|]. split; [exact Hrep|].
    split; [exact Honnx|]. split; [exact Hout|exact Hfiles].
  - intros w w1 X y X_train X_test y_train y_test e Hgen Hsplit He.
    exact (train_and_export_model_fit_fails L w w1 X y X_train X_test y_train
             y_test e Hgen Hsplit He).
Qed.

Module Refused.

(** The reference libraries with a [fit] that refuses every training set,
    on the machine of [Run]. *)
Definition libs : Libs := Failing.libs Failing.value_error.

Definition after_data : world libs :=
  (generate_synthetic_data libs (Some 2000%nat)
     (printed ["Generating synthetic training data..."] Run.ready)).2.

Lemma refused_data_ok :
  generate_synthetic_data libs (Some 2000%nat)
    (printed ["Generating synthetic training data..."] Run.ready)
  = (inr (Run.X, Run.y), after_data).
Proof. vm_compute. reflexivity. Qed.

Lemma refused_parts_ok :
  train_test_split libs Run.X Run.y test_size 42
  = inr (Run.X_train, Run.X_test, take 1600 Run.y, drop 1600 Run.y).
Proof. vm_compute. reflexivity. Qed.

End Refused.

Lemma hyperparameters_fixed_witness :
  (model = {| n_estimators := 100; max_depth := 10; min_samples_split := 5;
              random_state := 42 |}
   ∧ ∀ w : world Reference.libs,
       train_and_export_model (with_rf_fit Reference.libs strict_fit) w
       = train_and_export_model Reference.libs w)
  ∧ (∃ X y X_train y_train fitted accuracy report,
       rf_fit Reference.libs
         {| n_estimators := 100; max_depth := 10; min_samples_split := 5;
            random_state := 42 |} X_train y_train = inr fitted
       ∧ stdout Run.final = stdout Run.ready
           ++ console Reference.libs X_train y accuracy report
                (zip (columns X) (feature_importances_ Reference.libs fitted)))
  ∧ train_and_export_model Refused.libs Run.ready
    = (inl Failing.value_error,
       printed (before_fit Run.X_train Run.y) Refused.after_data).
Proof.
  assert (Hstrict : ∀ X y,
            strict_fit {| n_estimators := 100; max_depth := 10;
                          min_samples_split := 5; random_state := 42 |} X y
            = rf_fit Reference.libs
                {| n_estimators := 100; max_depth := 10;
                   min_samples_split := 5; random_state := 42 |} X y)
    by (intros X y; reflexivity).
  destruct (hyperparameters_fixed Reference.libs strict_fit Hstrict)
    as (Hmodel & Hsame & Hrun & _).
  split; [exact (conj Hmodel Hsame)|]. split.
  - destruct (Hrun Run.ready Run.final Run.result_ok)
      as (X & y & w1 & X_train & X_test & y_train & y_test & fitted & y_pred
          & accuracy & report & onnx & _ & _ & Hfitted & _ & _ & _ & _ & Hout & _).
    exists X, y, X_train, y_train, fitted, accuracy, report. auto.
  - exact (proj2 (proj2 (proj2
             (hyperparameters_fixed Refused.libs (rf_fit Refused.libs)
                (λ X y, eq_refl))))
             Run.ready Refused.after_data Run.X Run.y Run.X_train Run.X_test
             (take 1600 Run.y) (drop 1600 Run.y) Failing.value_error
             Refused.refused_data_ok Refused.refused_parts_ok eq_refl).
Defined.
